(** * swift-backtrace build glue: the helper script and its product descriptor

    Shallow embedding of
    - [tools/swift-backtrace/build-script-helper.py] (module [Helper]) and
    - [utils/swift_build_support/.../products/swiftbacktrace.py]
      (module [Product]).

    Python [str] and [bytes] values are byte strings ([string], one [ascii]
    per byte; a [str] is kept as its UTF-8 encoding).  The operating system
    (child processes and the file system) is an explicit world that the
    script threads through its calls; Python exceptions are a result type. *)

From Stdlib Require Import ZArith Ascii String List Lia.
From stdpp Require Import base strings gmap list.
Import ListNotations.

Local Open Scope string_scope.
Local Open Scope list_scope.

Ltac case_matches :=
  repeat match goal with
         | |- context [match ?x with _ => _ end] => destruct x
         end.

(** ** posixpath: the library functions the two files call *)

Module PosixPath.

(** [s.startswith('/')] *)
Definition starts_with_sep (s : string) : bool :=
  match s with
  | String "/" _ => true
  | _ => false
  end.

(** [s.endswith('/')] *)
Fixpoint ends_with_sep (s : string) : bool :=
  match s with
  | EmptyString => false
  | String c EmptyString => Ascii.eqb c "/"
  | String _ rest => ends_with_sep rest
  end.

Definition is_empty (s : string) : bool :=
  match s with
  | EmptyString => true
  | _ => false
  end.

(** One round of the loop of [posixpath.join]: an absolute component
    restarts the path, an empty or slash-terminated path takes the
    component as it is, anything else gets a separator first. *)
Definition join_step (path b : string) : string :=
  if starts_with_sep b then b
  else if is_empty path || ends_with_sep path then path +:+ b
  else path +:+ "/" +:+ b.

(** [os.path.join(a, *p)] *)
Definition join (a : string) (p : list string) : string :=
  fold_left join_step p a.

(** [path.split('/')] *)
Fixpoint split_sep (s : string) : list string :=
  match s with
  | EmptyString => [EmptyString]
  | String c rest =>
      if Ascii.eqb c "/" then EmptyString :: split_sep rest
      else
        match split_sep rest with
        | [] => [String c EmptyString]
        | comp :: comps => String c comp :: comps
        end
  end.

(** ['/'.join(comps)] *)
Fixpoint join_sep (comps : list string) : string :=
  match comps with
  | [] => EmptyString
  | [comp] => comp
  | comp :: rest => comp +:+ "/" +:+ join_sep rest
  end.

(** [new_comps and new_comps[-1] == '..'], on the reversed list. *)
Definition top_is_dotdot (new_comps : list string) : bool :=
  match new_comps with
  | top :: _ => String.eqb top ".."
  | [] => false
  end.

Definition no_comps (new_comps : list string) : bool :=
  match new_comps with
  | [] => true
  | _ => false
  end.

(** The loop of [posixpath.normpath] over the components; [new_comps]
    is kept reversed, so that its head is [new_comps[-1]]. *)
Fixpoint norm_comps (initial_slashes : nat) (new_comps comps : list string)
    : list string :=
  match comps with
  | [] => rev new_comps
  | comp :: rest =>
      if String.eqb comp "" || String.eqb comp "." then
        norm_comps initial_slashes new_comps rest
      else if negb (String.eqb comp "..")
              || (Nat.eqb initial_slashes 0 && no_comps new_comps)
              || top_is_dotdot new_comps then
        norm_comps initial_slashes (comp :: new_comps) rest
      else
        norm_comps initial_slashes (tl new_comps) rest
  end.

(** The number of leading slashes [normpath] keeps: two for exactly
    two, one for one or for three and more. *)
Definition initial_slashes (path : string) : nat :=
  match path with
  | String "/" (String "/" (String "/" _)) => 1
  | String "/" (String "/" _) => 2
  | String "/" _ => 1
  | _ => 0
  end.

(** [os.path.normpath(path)] *)
Definition normpath (path : string) : string :=
  if is_empty path then "."
  else
    let slashes := initial_slashes path in
    let comps := norm_comps slashes [] (split_sep path) in
    let path := String.concat "" (repeat "/" slashes) +:+ join_sep comps in
    if is_empty path then "." else path.

(** [os.path.abspath(path)], with [cwd] for [os.getcwd()]. *)
Definition abspath (cwd path : string) : string :=
  let path := if starts_with_sep path then path else join cwd [path] in
  normpath path.

(** [p[:i]] and [p[i:]] for [i = p.rfind('/') + 1]. *)
Fixpoint cut_at_last_sep (p : string) : string * string :=
  match p with
  | EmptyString => (EmptyString, EmptyString)
  | String c rest =>
      let (h, t) := cut_at_last_sep rest in
      if is_empty h then
        if Ascii.eqb c "/" then (String c EmptyString, rest)
        else (EmptyString, String c rest)
      else (String c h, t)
  end.

(** [s.rstrip('/')] *)
Fixpoint rstrip_sep (s : string) : string :=
  match s with
  | EmptyString => EmptyString
  | String c rest =>
      match rstrip_sep rest with
      | EmptyString => if Ascii.eqb c "/" then EmptyString else String c EmptyString
      | kept => String c kept
      end
  end.

(** [s == '/' * len(s)] *)
Fixpoint all_sep (s : string) : bool :=
  match s with
  | EmptyString => true
  | String c rest => Ascii.eqb c "/" && all_sep rest
  end.

(** [posixpath.split(p)]: head and tail around the last separator, the
    head without its trailing separators unless it is nothing else. *)
Definition split (p : string) : string * string :=
  let (head, tail) := cut_at_last_sep p in
  (if negb (is_empty head) && negb (all_sep head) then rstrip_sep head else head,
   tail).

End PosixPath.

(** ** Byte strings: [bytes.strip] and [bytes.decode] *)

Module Bytes.

(** The bytes [bytes.strip()] removes: space, tab, line feed, vertical
    tab, form feed and carriage return. *)
Definition is_space (c : ascii) : bool :=
  let n := nat_of_ascii c in
  Nat.eqb n 32 || (Nat.leb 9 n && Nat.leb n 13).

Fixpoint lstrip (s : string) : string :=
  match s with
  | EmptyString => EmptyString
  | String c rest => if is_space c then lstrip rest else s
  end.

Fixpoint rstrip (s : string) : string :=
  match s with
  | EmptyString => EmptyString
  | String c rest =>
      match rstrip rest with
      | EmptyString => if is_space c then EmptyString else String c EmptyString
      | kept => String c kept
      end
  end.

Definition strip (s : string) : string := rstrip (lstrip s).

Definition between (lo hi : nat) (c : ascii) : bool :=
  Nat.leb lo (nat_of_ascii c) && Nat.leb (nat_of_ascii c) hi.

(** Well-formed UTF-8, by the byte ranges of the Unicode standard: one
    to four bytes per code point, no overlong forms, no surrogates,
    nothing above U+10FFFF. *)
Fixpoint utf8_valid (s : string) : bool :=
  match s with
  | EmptyString => true
  | String a r1 =>
      if between 0 127 a then utf8_valid r1
      else
        match r1 with
        | EmptyString => false
        | String b r2 =>
            if between 194 223 a then between 128 191 b && utf8_valid r2
            else
              match r2 with
              | EmptyString => false
              | String c r3 =>
                  if between 224 239 a then
                    (if Nat.eqb (nat_of_ascii a) 224 then between 160 191 b
                     else if Nat.eqb (nat_of_ascii a) 237 then between 128 159 b
                     else between 128 191 b)
                    && between 128 191 c && utf8_valid r3
                  else
                    match r3 with
                    | EmptyString => false
                    | String d r4 =>
                        between 240 244 a
                        && (if Nat.eqb (nat_of_ascii a) 240 then between 144 191 b
                            else if Nat.eqb (nat_of_ascii a) 244 then between 128 143 b
                            else between 128 191 b)
                        && between 128 191 c && between 128 191 d
                        && utf8_valid r4
                    end
              end
        end
  end.

End Bytes.

(** ** The operating system: exceptions, file system, child processes *)

Module OS.

(** The Python exceptions the calls of the script can raise. *)
Inductive exn :=
| TypeError
| FileExistsError (path : string)
| FileNotFoundError (path : string)
| NotADirectoryError (path : string)
| IsADirectoryError (path : string)
| SameFileError (path : string)
| CalledProcessError (returncode : Z) (cmd : list string)
| UnicodeDecodeError
| PermissionError (path : string)
| ValueError.

Inductive result (A : Type) :=
| Ok (a : A)
| Raise (e : exn).
Arguments Ok {A} a.
Arguments Raise {A} e.

(** What a path can name: a directory or a regular file (no symbolic
    links, no permissions).  The file system maps the absolute path of an
    entry, written without superfluous separators ("/usr/libexec"), to
    what is there; the root is always a directory.  A path given to a
    system call is looked up component by component, see [walk]. *)
Inductive node :=
| Dir
| File (content : string).

(** What starting a child process gives: the process could not be
    started ([OSError] from [Popen]), or it ran to its exit code, wrote
    [stdout] and left the file system as [fs_after]. *)
Inductive child :=
| NotStarted (e : exn)
| Exited (returncode : Z) (stdout : string) (fs_after : gmap string node).

(** The installed programs (here: the toolchain) are a function of the
    argument vector and the file system. *)
Definition programs := list string -> gmap string node -> child.

(** The calls that reach the operating system, in program order. *)
Inductive event :=
| Call (argv : list string)
| CheckOutput (argv : list string)
| Makedirs (path : string)
| Copyfile (src dst : string).

(** The world of the process: the file system, the calls made so far,
    and the working directory, an absolute path as [os.getcwd()] gives it,
    which the script never changes. *)
Record world := {
  fs : gmap string node;
  trace : list event;
  cwd : string
}.

Definition record (e : event) (w : world) : world :=
  {| fs := fs w; trace := trace w ++ [e]; cwd := cwd w |}.

Definition with_fs (f : gmap string node) (w : world) : world :=
  {| fs := f; trace := trace w; cwd := cwd w |}.

(** Computations of the script: the world goes in, a value or an
    exception comes out with the world as it is by then. *)
Definition M (A : Type) : Type := world -> result A * world.

Definition ret {A} (a : A) : M A := fun w => (Ok a, w).

Definition raise {A} (e : exn) : M A := fun w => (Raise e, w).

Definition bind {A B} (m : M A) (k : A -> M B) : M B :=
  fun w =>
    match m w with
    | (Ok a, w') => k a w'
    | (Raise e, w') => (Raise e, w')
    end.

(** [os.fspath] on an argument that may be [None]. *)
Definition fspath (p : option string) : M string :=
  match p with
  | Some s => ret s
  | None => raise TypeError
  end.

(** *** Looking a path up *)

(** A path with a NUL byte is refused by every system call of Python
    ([ValueError: embedded null byte]). *)
Fixpoint has_nul (s : string) : bool :=
  match s with
  | EmptyString => false
  | String c rest => Ascii.eqb c zero || has_nul rest
  end.

(** A place in the tree is the stack of names that leads to it from the
    root, innermost first; [key_of] is its key in the file system. *)
Definition key_of (stack : list string) : string :=
  "/" +:+ PosixPath.join_sep (rev stack).

Definition node_at (f : gmap string node) (stack : list string) : option node :=
  match stack with
  | [] => Some Dir
  | _ => f !! key_of stack
  end.

(** The place of a directory given by its absolute path. *)
Definition stack_of (dir : string) : list string :=
  rev (List.filter (fun c => negb (PosixPath.is_empty c)) (PosixPath.split_sep dir)).

(** The outcome of a lookup: a place, or [ENOENT], or [ENOTDIR]. *)
Inductive walked :=
| At (stack : list string)
| NoEntry
| NotDir.

(** One component from a place: the place must be a directory; an empty
    component and [.] stay, [..] goes up (the root is its own parent), a
    name goes down to an entry that is there. *)
Definition step (f : gmap string node) (stack : list string) (comp : string)
    : walked :=
  match node_at f stack with
  | Some Dir =>
      if String.eqb comp "" || String.eqb comp "." then At stack
      else
        let next := if String.eqb comp ".." then tl stack else comp :: stack in
        match node_at f next with
        | Some _ => At next
        | None => NoEntry
        end
  | Some (File _) => NotDir
  | None => NoEntry
  end.

Fixpoint walk (f : gmap string node) (stack : list string) (comps : list string)
    : walked :=
  match comps with
  | [] => At stack
  | comp :: rest =>
      match step f stack comp with
      | At next => walk f next rest
      | failed => failed
      end
  end.

(** Where a lookup starts: the root for an absolute path, the working
    directory for a relative one. *)
Definition start (cwd path : string) : list string :=
  if PosixPath.starts_with_sep path then [] else stack_of cwd.

(** The lookup of a whole path, as [stat] does it. *)
Inductive found :=
| Found (stack : list string) (n : node)
| Missing
| Blocked.

Definition lookup_path (f : gmap string node) (cwd path : string) : found :=
  if PosixPath.is_empty path then Missing
  else
    match walk f (start cwd path) (PosixPath.split_sep path) with
    | At stack =>
        match node_at f stack with
        | Some n => Found stack n
        | None => Missing
        end
    | NoEntry => Missing
    | NotDir => Blocked
    end.

(** [os.path.exists(path)]: [os.stat] succeeds; [OSError] and
    [ValueError] both give [False]. *)
Definition path_exists (f : gmap string node) (cwd path : string) : bool :=
  negb (has_nul path)
  && match lookup_path f cwd path with
     | Found _ _ => true
     | _ => false
     end.

(** The components of a path without the empty ones that trailing
    separators leave at the end. *)
Fixpoint drop_trailing_empty (comps : list string) : list string :=
  match comps with
  | [] => []
  | comp :: rest =>
      match drop_trailing_empty rest with
      | [] => if PosixPath.is_empty comp then [] else [comp]
      | kept => comp :: kept
      end
  end.

(** A non-empty list as what is before its last element, and that. *)
Fixpoint split_last (l : list string) : option (list string * string) :=
  match l with
  | [] => None
  | x :: rest =>
      match split_last rest with
      | None => Some ([], x)
      | Some (front, last) => Some (x :: front, last)
      end
  end.

(** The directory a new entry goes into and its name: the path without
    trailing separators, cut before its last component.  [None] for a
    path of separators only. *)
Definition parent_and_name (path : string) : option (list string * string) :=
  split_last (drop_trailing_empty (PosixPath.split_sep path)).

Definition is_dot_or_dotdot (name : string) : bool :=
  String.eqb name "." || String.eqb name "..".

(** *** Making directories *)

(** [os.mkdir(path)]: the parent must be a directory that is there, the
    name must be new; [.], [..] and the root are there already. *)
Definition mkdir (path : string) : M unit :=
  fun w =>
    if has_nul path then (Raise ValueError, w)
    else if PosixPath.is_empty path then (Raise (FileNotFoundError path), w)
    else
      match parent_and_name path with
      | None => (Raise (FileExistsError path), w)
      | Some (parent, name) =>
          match walk (fs w) (start (cwd w) path) parent with
          | NoEntry => (Raise (FileNotFoundError path), w)
          | NotDir => (Raise (NotADirectoryError path), w)
          | At stack =>
              match node_at (fs w) stack with
              | None => (Raise (FileNotFoundError path), w)
              | Some (File _) => (Raise (NotADirectoryError path), w)
              | Some Dir =>
                  if is_dot_or_dotdot name then (Raise (FileExistsError path), w)
                  else
                    match node_at (fs w) (name :: stack) with
                    | Some _ => (Raise (FileExistsError path), w)
                    | None =>
                        (Ok tt, with_fs (<[key_of (name :: stack) := Dir]> (fs w)) w)
                    end
              end
          end
      end.

(** The body of [os.makedirs(name)] with [exist_ok] left at [False], the
    recursive call on the head given as [recur]:
    [head, tail = path.split(name)], once more when the tail is empty;
    a head that is not there is made first, a [FileExistsError] from that
    is passed over; a tail [.] then needs nothing more; at the end
    [mkdir(name)], whose errors are raised again. *)
Definition makedirs_step (recur : string -> M unit) (name : string) : M unit :=
  fun w =>
    let (head, tail) := PosixPath.split name in
    let (head, tail) :=
      if PosixPath.is_empty tail then PosixPath.split head else (head, tail) in
    if negb (PosixPath.is_empty head) && negb (PosixPath.is_empty tail)
       && negb (path_exists (fs w) (cwd w) head)
    then
      match recur head w with
      | (Raise (FileExistsError _), w1) | (Ok _, w1) =>
          if String.eqb tail "." then (Ok tt, w1) else mkdir name w1
      | (Raise e, w1) => (Raise e, w1)
      end
    else mkdir name w.

(** The recursion of [makedirs] goes to a strictly shorter head: [fuel],
    the length of the name, bounds its depth.  At length nothing the body
    is [mkdir] alone. *)
Fixpoint makedirs_rec (fuel : nat) (name : string) : M unit :=
  match fuel with
  | O => mkdir name
  | S fuel' => makedirs_step (makedirs_rec fuel') name
  end.

(** [os.makedirs(name)] *)
Definition makedirs (name : string) : M unit :=
  fun w => makedirs_rec (String.length name) name (record (Makedirs name) w).

(** *** Copying a file *)

(** [open(dst, 'wb')] followed by the write of [content]: the file is
    made in the directory it goes into, or written over.  A name with a
    trailing separator is refused ([EISDIR], which [copyfile] turns into
    [FileNotFoundError] when nothing is there). *)
Definition write_file (dst content : string) : M unit :=
  fun w =>
    if PosixPath.is_empty dst then (Raise (FileNotFoundError dst), w)
    else
      match parent_and_name dst with
      | None => (Raise (IsADirectoryError dst), w)
      | Some (parent, name) =>
          match walk (fs w) (start (cwd w) dst) parent with
          | NoEntry => (Raise (FileNotFoundError dst), w)
          | NotDir => (Raise (NotADirectoryError dst), w)
          | At stack =>
              match node_at (fs w) stack with
              | None => (Raise (FileNotFoundError dst), w)
              | Some (File _) => (Raise (NotADirectoryError dst), w)
              | Some Dir =>
                  if is_dot_or_dotdot name then (Raise (IsADirectoryError dst), w)
                  else
                    match node_at (fs w) (name :: stack) with
                    | Some Dir => (Raise (IsADirectoryError dst), w)
                    | _ =>
                        if PosixPath.ends_with_sep dst
                        then (Raise (FileNotFoundError dst), w)
                        else
                          (Ok tt,
                           with_fs (<[key_of (name :: stack) := File content]> (fs w)) w)
                    end
              end
          end
      end.

(** [os.path.samefile(src, dst)] inside [shutil._samefile]: both are
    there and are the same entry; a failing [stat] gives [False]. *)
Definition same_file (f : gmap string node) (cwd src dst : string) : bool :=
  match lookup_path f cwd src, lookup_path f cwd dst with
  | Found s1 _, Found s2 _ => String.eqb (key_of s1) (key_of s2)
  | _, _ => false
  end.

(** [shutil.copyfile(src, dst)]: the same-file check, [open(src, 'rb')],
    then [open(dst, 'wb')] and the copy of the content. *)
Definition copyfile (src dst : string) : M unit :=
  fun w =>
    let w := record (Copyfile src dst) w in
    if has_nul src || has_nul dst then (Raise ValueError, w)
    else if same_file (fs w) (cwd w) src dst then (Raise (SameFileError src), w)
    else
      match lookup_path (fs w) (cwd w) src with
      | Missing => (Raise (FileNotFoundError src), w)
      | Blocked => (Raise (NotADirectoryError src), w)
      | Found _ Dir => (Raise (IsADirectoryError src), w)
      | Found _ (File content) => write_file dst content w
      end.

(** [subprocess.call(argv)]: the exit code of the child; its output goes
    to the inherited streams. *)
Definition subprocess_call (sys : programs) (argv : list string) : M Z :=
  fun w =>
    let w := record (Call argv) w in
    match sys argv (fs w) with
    | NotStarted e => (Raise e, w)
    | Exited returncode _ fs_after => (Ok returncode, with_fs fs_after w)
    end.

(** [subprocess.check_output(argv)]: the captured standard output, or
    [CalledProcessError] when the exit code is not zero. *)
Definition subprocess_check_output (sys : programs) (argv : list string)
    : M string :=
  fun w =>
    let w := record (CheckOutput argv) w in
    match sys argv (fs w) with
    | NotStarted e => (Raise e, w)
    | Exited returncode stdout fs_after =>
        if Z.eqb returncode 0 then (Ok stdout, with_fs fs_after w)
        else (Raise (CalledProcessError returncode argv), with_fs fs_after w)
    end.

(** [bytes.decode()] with the default codec, UTF-8, and strict errors. *)
Definition decode (b : string) : M string :=
  if Bytes.utf8_valid b then ret b else raise UnicodeDecodeError.

(** The exit status of the interpreter: 0 when the script runs to its
    end, 1 when an exception escapes. *)
Definition exit_status {A} (r : result A) : Z :=
  match r with
  | Ok _ => 0
  | Raise _ => 1
  end.

End OS.

Notation "x <- m ;; k" := (OS.bind m (fun x => k))
  (at level 100, m at next level, right associativity).
Notation "m ;;; k" := (OS.bind m (fun _ => k))
  (at level 100, right associativity).

(** ** build-script-helper.py *)

Module Helper.

(** The [argparse.Namespace] that [parser.parse_args()] returns.  The
    optional string arguments default to [None]. *)
Record Namespace := {
  action : string;
  verbose : bool;
  package_path : string;
  build_path : string;
  toolchain : string;
  install_path : option string;
  configuration : string;
  prefix : option string
}.

(** [swift_path = os.path.join(args.toolchain, 'bin', 'swift')] *)
Definition swift_path (args : Namespace) : string :=
  PosixPath.join (toolchain args) ["bin"; "swift"].

(** [get_args_for_swift(action, product, extra_args)], a closure over
    [args] and [swift_path]. *)
Definition get_args_for_swift (args : Namespace)
    (action product : string) (extra_args : list string) : list string :=
  let all_args :=
    [ swift_path args; action;
      "--package-path"; package_path args;
      "--scratch-path"; build_path args;
      "--configuration"; configuration args ] in
  let all_args := all_args ++ extra_args in
  let all_args :=
    if String.eqb action "test"
    then all_args ++ ["--test-product"; product]
    else all_args ++ ["--product"; product] in
  let all_args :=
    if verbose args then all_args ++ ["--verbose"] else all_args in
  all_args.

(** [invoke_swift(action, product, extra_args = [])]: the result of
    [subprocess.call] is dropped, the function returns [None]. *)
Definition invoke_swift (sys : OS.programs) (args : Namespace)
    (action product : string) (extra_args : list string) : OS.M unit :=
  _ <- OS.subprocess_call sys (get_args_for_swift args action product extra_args) ;;
  OS.ret tt.

(** [get_binary_path(product)] *)
Definition get_binary_path (sys : OS.programs) (args : Namespace)
    (product : string) : OS.M string :=
  let cmd := get_args_for_swift args "build" product ["--show-bin-path"] in
  out <- OS.subprocess_check_output sys cmd ;;
  bin_path <- OS.decode (Bytes.strip out) ;;
  OS.ret (PosixPath.join bin_path ["swift-backtrace"]).

(** The body of [main()] after [parse_args]. *)
Definition main (sys : OS.programs) (args : Namespace) : OS.M unit :=
  if String.eqb (action args) "build" then
    invoke_swift sys args "build" "swift-backtrace" []
  else if String.eqb (action args) "test" then
    invoke_swift sys args "test" "swift-backtrace" []
  else if String.eqb (action args) "install" then
    invoke_swift sys args "build" "swift-backtrace" [] ;;;
    install_dir <- OS.fspath (install_path args) ;;
    OS.makedirs install_dir ;;;
    built_binary <- get_binary_path sys args "swift-backtrace" ;;
    OS.copyfile built_binary (PosixPath.join install_dir ["swift-backtrace"])
  else
    OS.ret tt.

(** Running the script on parsed arguments: exit status and world. *)
Definition run (sys : OS.programs) (args : Namespace) (w : OS.world)
    : Z * OS.world :=
  let (r, w') := main sys args w in (OS.exit_status r, w').

(** What [add_argument] declares: [choices] for an argument, [None]
    when any string is taken. *)
Definition action_choices : option (list string) := None.

Definition configuration_choices : option (list string) :=
  Some ["debug"; "release"].

Definition accepted (choices : option (list string)) (v : string) : bool :=
  match choices with
  | None => true
  | Some cs => existsb (String.eqb v) cs
  end.

(** The checks of [parse_args] on the arguments that have [choices]. *)
Definition parsed (args : Namespace) : bool :=
  accepted action_choices (action args)
  && accepted configuration_choices (configuration args).

(** The option strings the [add_argument] calls declare, and those among
    them with [required=True]. *)
Definition declared_options : list string :=
  ["--verbose"; "-v"; "--package-path"; "--build-path"; "--toolchain";
   "--install-path"; "--configuration"; "--prefix"].

Definition required_options : list string :=
  ["--package-path"; "--build-path"; "--toolchain"].

End Helper.


(** ** products/swiftbacktrace.py *)

Module Product.

(** The upstream product classes [get_dependencies] names. *)
Inductive product_class :=
| CMark
| LLVM
| LibCXX
| LibICU
| Swift
| LibDispatch
| Foundation
| XCTest
| LLBuild
| SwiftPM.

(** The build-script arguments the class reads from [self.args]. *)
Record build_script_args := {
  verbose_build : bool;
  test_swift_backtrace : bool;
  install_swift_backtrace : bool
}.

(** A [SwiftBacktrace] instance with what it inherits from
    [product.Product], a class outside these two files: the attributes
    [args], [source_dir] and [build_dir], and the results of the methods
    [is_release], [install_toolchain_path] and [native_toolchain_path].
    A host target is its name. *)
Record SwiftBacktrace := {
  args : build_script_args;
  source_dir : string;
  build_dir : string;
  is_release : bool;
  install_toolchain_path : string -> string;
  native_toolchain_path : string -> string
}.

Definition product_source_name : string := "swift-backtrace".

Definition is_build_script_impl_product : bool := false.

Definition is_before_build_script_impl_product : bool := false.

(** The commands handed to [shell.call], oldest first. *)
Definition shell := list (list string).

Definition shell_call (cmd : list string) (sh : shell) : shell := sh ++ [cmd].

(** The list [helper_cmd] that [run_build_script_helper] assembles;
    [cwd] is the working directory [os.path.abspath] reads. *)
Definition helper_cmd (cwd : string) (self : SwiftBacktrace)
    (action host_target : string) : list string :=
  let configuration := if is_release self then "release" else "debug" in
  let package_path :=
    PosixPath.join (source_dir self) [".."; "swift"; "tools"; "swift-backtrace"] in
  let package_path := PosixPath.abspath cwd package_path in
  let script_path := PosixPath.join package_path ["build-script-helper.py"] in
  let install_toolchain_path := install_toolchain_path self host_target in
  let install_path := PosixPath.join install_toolchain_path ["libexec"; "swift"] in
  let helper_cmd :=
    [ script_path; action;
      "--toolchain"; native_toolchain_path self host_target;
      "--configuration"; configuration;
      "--build-path"; build_dir self;
      "--package-path"; package_path;
      "--install-path"; install_path ] in
  if verbose_build (args self) then helper_cmd ++ ["--verbose"] else helper_cmd.

Definition run_build_script_helper (cwd : string) (self : SwiftBacktrace)
    (action host_target : string) (sh : shell) : shell :=
  shell_call (helper_cmd cwd self action host_target) sh.

Definition should_build (self : SwiftBacktrace) (host_target : string) : bool :=
  true.

Definition build (cwd : string) (self : SwiftBacktrace) (host_target : string)
    : shell -> shell :=
  run_build_script_helper cwd self "build" host_target.

Definition should_test (self : SwiftBacktrace) (host_target : string) : bool :=
  test_swift_backtrace (args self).

Definition test (cwd : string) (self : SwiftBacktrace) (host_target : string)
    : shell -> shell :=
  run_build_script_helper cwd self "test" host_target.

Definition should_install (self : SwiftBacktrace) (host_target : string) : bool :=
  install_swift_backtrace (args self).

Definition install (cwd : string) (self : SwiftBacktrace) (host_target : string)
    : shell -> shell :=
  run_build_script_helper cwd self "install" host_target.

(** [get_dependencies] is a class method: it has the class and nothing
    else to read. *)
Definition get_dependencies : list product_class :=
  [CMark; LLVM; LibCXX; LibICU; Swift; LibDispatch; Foundation; XCTest;
   LLBuild; SwiftPM].

End Product.

(** ** Vocabulary of the properties *)

Import Helper OS.

(** The three actions of the data model. *)
Definition build_action (a : string) : bool :=
  existsb (String.eqb a) ["build"; "test"; "install"].

(** The flag that names the product, by action. *)
Definition product_flag (a : string) : string :=
  if String.eqb a "test" then "--test-product" else "--product".

(** How many elements of a vector are the string [x]. *)
Definition count (x : string) (v : list string) : nat :=
  length (List.filter (String.eqb x) v).

(** The three path and mode flags every invocation carries. *)
Definition common_flags : list string :=
  ["--package-path"; "--scratch-path"; "--configuration"].

Definition is_common_flag (s : string) : bool :=
  existsb (fun f => String.eqb f s) common_flags.

(** [s[-1]], when there is one. *)
Fixpoint last_byte (s : string) : option ascii :=
  match s with
  | EmptyString => None
  | String c EmptyString => Some c
  | String _ rest => last_byte rest
  end.

(** The shape asked of a vector [v] built for action [a] and product
    [p]: each common flag once, in the order package path, scratch path,
    configuration, and after them the flag that names the product. *)
Definition flags_in_order (a p : string) (v : list string) : Prop :=
  count "--package-path" v = 1
  /\ count "--scratch-path" v = 1
  /\ count "--configuration" v = 1
  /\ exists l0 l1 l2 l3 l4,
       v = l0 ++ "--package-path" :: l1 ++ "--scratch-path" :: l2
              ++ "--configuration" :: l3 ++ product_flag a :: p :: l4.

(** The verbosity flag in a vector [v]: there exactly when asked for, and
    then as the last element and nowhere else. *)
Definition verbose_flag_last (asked : bool) (v : list string) : Prop :=
  (In "--verbose" v <-> asked = true)
  /\ (In "--verbose" v ->
      exists front, v = front ++ ["--verbose"] /\ ~ In "--verbose" front).

(** The verb [main] passes to [invoke_swift] first: test for the test
    action, build for build and for install. *)
Definition first_verb (args : Namespace) : string :=
  if String.eqb (action args) "test" then "test" else "build".

Definition first_command (args : Namespace) : list string :=
  get_args_for_swift args (first_verb args) "swift-backtrace" [].

(** The exit status of the tool is the exit code of the child it ran. *)
Definition exit_code_propagated (sys : programs) (args : Namespace) (w : world)
    : Prop :=
  forall returncode stdout fs_after,
    sys (first_command args) (fs w) = Exited returncode stdout fs_after ->
    fst (run sys args w) = returncode.

(** What [main] does for install once the build child has returned. *)
Definition after_build (sys : programs) (args : Namespace) : M unit :=
  install_dir <- fspath (install_path args) ;;
  makedirs install_dir ;;;
  built_binary <- get_binary_path sys args "swift-backtrace" ;;
  copyfile built_binary (PosixPath.join install_dir ["swift-backtrace"]).

(** The query [get_binary_path] runs. *)
Definition query_command (args : Namespace) (product : string) : list string :=
  get_args_for_swift args "build" product ["--show-bin-path"].

(** The path query fails when the child exits non-zero or prints nothing. *)
Definition resolution_fails (sys : programs) (args : Namespace)
    (product : string) (w : world) : Prop :=
  forall returncode stdout fs_after,
    sys (query_command args product) (fs w) = Exited returncode stdout fs_after ->
    returncode <> 0%Z \/ stdout = "" ->
    exists e, fst (get_binary_path sys args product w) = Raise e.

(** A toolchain whose every run fails with exit code 1. *)
Definition failing_toolchain : programs :=
  fun _ f => Exited 1 "" f.

(** A toolchain that succeeds and prints nothing. *)
Definition silent_toolchain : programs :=
  fun _ f => Exited 0 "" f.

(** What a build leaves: the binary in the release directory under the
    scratch path. *)
Definition built (f : gmap string node) : gmap string node :=
  <["/tmp/out/release/swift-backtrace" := File "ELF"]>
    (<["/tmp/out/release" := Dir]> (<["/tmp/out" := Dir]> (<["/tmp" := Dir]> f))).

(** A toolchain that leaves the binary in the scratch directory and
    prints that directory when asked for it. *)
Definition working_toolchain : programs :=
  fun argv f =>
    if existsb (String.eqb "--show-bin-path") argv
    then Exited 0 ("/tmp/out/release" +:+ String (ascii_of_nat 10) "") f
    else Exited 0 "" (built f).

(** The scenario's configuration for install into /usr/libexec/swift. *)
Definition install_scenario : Namespace := {|
  action := "install";
  verbose := false;
  package_path := "/src/pkg";
  build_path := "/tmp/out";
  toolchain := "/opt/toolchain";
  install_path := Some "/usr/libexec/swift";
  configuration := "release";
  prefix := None
|}.

(** The same, with the install path written with a trailing separator. *)
Definition install_scenario_slash : Namespace := {|
  action := "install";
  verbose := false;
  package_path := "/src/pkg";
  build_path := "/tmp/out";
  toolchain := "/opt/toolchain";
  install_path := Some "/usr/libexec/swift/";
  configuration := "release";
  prefix := None
|}.

(** A tree with the directory /usr/libexec/swift and what is above it. *)
Definition installed_tree : gmap string node :=
  <["/usr/libexec/swift" := Dir]>
    (<["/usr/libexec" := Dir]> (<["/usr" := Dir]> ∅)).

(** A world where the install directory is already there. *)
Definition installed_world : world :=
  {| fs := installed_tree; trace := []; cwd := "/" |}.

(** The scenario's configuration with an action outside the three. *)
Definition deploy_scenario : Namespace := {|
  action := "deploy";
  verbose := false;
  package_path := "/src/pkg";
  build_path := "/tmp/out";
  toolchain := "/opt/toolchain";
  install_path := None;
  configuration := "release";
  prefix := None
|}.

(** The configuration of the build scenario. *)
Definition scenario : Namespace := {|
  action := "build";
  verbose := false;
  package_path := "/src/pkg";
  build_path := "/tmp/out";
  toolchain := "/opt/toolchain";
  install_path := None;
  configuration := "release";
  prefix := None
|}.

Definition empty_world : world := {| fs := ∅; trace := []; cwd := "/" |}.

(** The scenario's configuration with verbosity on, for the test action. *)
Definition verbose_scenario : Namespace := {|
  action := "test";
  verbose := true;
  package_path := "/src/pkg";
  build_path := "/tmp/out";
  toolchain := "/opt/toolchain";
  install_path := None;
  configuration := "debug";
  prefix := None
|}.

(** The scenario's configuration with paths that are spelled like flags,
    as [--package-path=--verbose --build-path=--configuration] gives. *)
Definition flag_paths_scenario : Namespace := {|
  action := "build";
  verbose := false;
  package_path := "--verbose";
  build_path := "--configuration";
  toolchain := "/opt/toolchain";
  install_path := None;
  configuration := "release";
  prefix := None
|}.

(** A descriptor as the build script would set it up. *)
Definition sample_product : Product.SwiftBacktrace := {|
  Product.args := {| Product.verbose_build := true;
                     Product.test_swift_backtrace := false;
                     Product.install_swift_backtrace := true |};
  Product.source_dir := "/work/swift-backtrace";
  Product.build_dir := "/work/build/swift-backtrace";
  Product.is_release := true;
  Product.install_toolchain_path := fun host => "/work/install/" +:+ host +:+ "/usr";
  Product.native_toolchain_path := fun _ => "/work/toolchain/usr"
|}.

(** ** Vocabulary of the further properties *)

(** The same arguments with another [--prefix], another [--install-path]. *)
Definition with_prefix (p : option string) (args : Namespace) : Namespace := {|
  action := action args;
  verbose := verbose args;
  package_path := package_path args;
  build_path := build_path args;
  toolchain := toolchain args;
  install_path := install_path args;
  configuration := configuration args;
  prefix := p
|}.

Definition with_install_path (d : option string) (args : Namespace) : Namespace := {|
  action := action args;
  verbose := verbose args;
  package_path := package_path args;
  build_path := build_path args;
  toolchain := toolchain args;
  install_path := d;
  configuration := configuration args;
  prefix := prefix args
|}.

(** Is the vector a call of the compiler of [args] with one of [verbs]? *)
Definition swift_call (args : Namespace) (verbs : list string)
    (argv : list string) : bool :=
  match argv with
  | program :: verb :: _ =>
      String.eqb program (swift_path args) && existsb (String.eqb verb) verbs
  | _ => false
  end.

(** The operating system calls [main] may make for [args]: the compiler
    with build or test, the query with build, and, for install only, the
    creation of the install directory and a copy to swift-backtrace in it. *)
Definition allowed_event (args : Namespace) (e : event) : bool :=
  match e with
  | Call argv => swift_call args ["build"; "test"] argv
  | CheckOutput argv =>
      swift_call args ["build"] argv
      && existsb (String.eqb "--show-bin-path") argv
      && String.eqb (action args) "install"
  | Makedirs path =>
      String.eqb (action args) "install"
      && match install_path args with
         | Some d => String.eqb path d
         | None => false
         end
  | Copyfile _ dst =>
      String.eqb (action args) "install"
      && match install_path args with
         | Some d => String.eqb dst (PosixPath.join d ["swift-backtrace"])
         | None => false
         end
  end.

(** A system without the toolchain: no program can be started. *)
Definition missing_toolchain : programs :=
  fun argv _ => NotStarted (FileNotFoundError (hd "" argv)).

(** The sample descriptor for a debug build from a relative checkout. *)
Definition relative_product : Product.SwiftBacktrace := {|
  Product.args := Product.args sample_product;
  Product.source_dir := "checkout/swift-backtrace";
  Product.build_dir := Product.build_dir sample_product;
  Product.is_release := false;
  Product.install_toolchain_path := Product.install_toolchain_path sample_product;
  Product.native_toolchain_path := Product.native_toolchain_path sample_product
|}.

(** One file system has all that another has, unchanged. *)
Definition extends (f f' : gmap string node) : Prop :=
  forall stack n, node_at f stack = Some n -> node_at f' stack = Some n.

(** The tail [os.makedirs] ends with: that of [path.split(name)], or of
    the split of its head when the name ends in a separator. *)
Definition final_name (name : string) : string :=
  let (head, tail) := PosixPath.split name in
  if PosixPath.is_empty tail then snd (PosixPath.split head) else tail.

(** The content of the regular file a path leads to, as [open(path,
    'rb')] reads it. *)
Definition file_at (f : gmap string node) (cwd path : string) : option string :=
  if has_nul path then None
  else
    match lookup_path f cwd path with
    | Found _ (File content) => Some content
    | _ => None
    end.

(** The file system calls change neither the record of calls nor the
    working directory. *)
Definition same_frame (w w' : world) : Prop :=
  trace w' = trace w /\ cwd w' = cwd w.

(** The world after the build and [os.makedirs] of the install scenario. *)
Definition made_world : world :=
  {| fs := <["/usr/libexec/swift" := Dir]>
             (<["/usr/libexec" := Dir]> (<["/usr" := Dir]> (built ∅)));
     trace := [Call (first_command install_scenario); Makedirs "/usr/libexec/swift"];
     cwd := "/" |}.

(** A component without a separator in it. *)
Fixpoint no_sep (s : string) : bool :=
  match s with
  | EmptyString => true
  | String c rest => negb (Ascii.eqb c "/") && no_sep rest
  end.

(** A name: a component that is not empty, not [.] and not [..]. *)
Definition is_name (c : string) : bool :=
  negb (PosixPath.is_empty c) && negb (String.eqb c ".")
  && negb (String.eqb c "..") && no_sep c.

(** The stack of [normpath] in normal form, top first: names over a run
    of [..], the run empty for a path with leading separators. *)
Definition normal_stack (n : nat) (acc : list string) : Prop :=
  exists tops j,
    acc = tops ++ repeat ".." j
    /\ forallb is_name tops = true
    /\ (n <> 0 -> j = 0).

(** A run of separators. *)
Fixpoint seps (k : nat) : string :=
  match k with
  | O => EmptyString
  | S k' => String "/" (seps k')
  end.

(** ** The model on concrete inputs *)

Example join_toolchain :
  PosixPath.join "/opt/toolchain" ["bin"; "swift"] = "/opt/toolchain/bin/swift".
Proof. reflexivity. Qed.

Example join_restarts_at_absolute :
  PosixPath.join "/opt/toolchain/" ["bin"; "/usr/bin/swift"] = "/usr/bin/swift".
Proof. reflexivity. Qed.

Example normpath_dotdot :
  PosixPath.normpath "/work/swift-backtrace/../swift//tools/./swift-backtrace"
    = "/work/swift/tools/swift-backtrace".
Proof. reflexivity. Qed.

Example normpath_two_slashes : PosixPath.normpath "//a/../../b" = "//b".
Proof. reflexivity. Qed.

Example strip_line :
  Bytes.strip ("  /tmp/out/release" +:+ String (ascii_of_nat 10) "")
    = "/tmp/out/release".
Proof. reflexivity. Qed.

Example install_succeeds :
  main working_toolchain install_scenario empty_world =
    (Ok tt,
     {| fs := <["/usr/libexec/swift/swift-backtrace" := File "ELF"]>
                (<["/usr/libexec/swift" := Dir]>
                   (<["/usr/libexec" := Dir]> (<["/usr" := Dir]> (built ∅))));
        trace :=
          [Call (get_args_for_swift install_scenario "build" "swift-backtrace" []);
           Makedirs "/usr/libexec/swift";
           CheckOutput (query_command install_scenario "swift-backtrace");
           Copyfile "/tmp/out/release/swift-backtrace"
                    "/usr/libexec/swift/swift-backtrace"];
        cwd := "/" |}).
Proof. vm_compute. reflexivity. Qed.

Example makedirs_other_spelling :
  fst (makedirs "/usr/./libexec//swift/" installed_world)
    = Raise (FileExistsError "/usr/./libexec//swift/").
Proof. reflexivity. Qed.

Example makedirs_relative :
  makedirs "libexec/swift/../tools"
    {| fs := installed_tree; trace := []; cwd := "/usr" |} =
    (Ok tt,
     {| fs := <["/usr/libexec/tools" := Dir]> installed_tree;
        trace := [Makedirs "libexec/swift/../tools"];
        cwd := "/usr" |}).
Proof. vm_compute. reflexivity. Qed.

Example makedirs_under_a_file :
  fst (makedirs "/tmp/out/release/swift-backtrace/x/y"
         {| fs := built ∅; trace := []; cwd := "/" |})
    = Raise (NotADirectoryError "/tmp/out/release/swift-backtrace/x").
Proof. reflexivity. Qed.

Example install_without_install_path :
  fst (main working_toolchain
         {| action := "install"; verbose := false; package_path := "/src/pkg";
            build_path := "/tmp/out"; toolchain := "/opt/toolchain";
            install_path := None; configuration := "release"; prefix := None |}
         empty_world) = Raise TypeError.
Proof. reflexivity. Qed.

Example sample_helper_cmd :
  Product.helper_cmd "/work" sample_product "test" "linux-x86_64" =
    ["/work/swift/tools/swift-backtrace/build-script-helper.py"; "test";
     "--toolchain"; "/work/toolchain/usr";
     "--configuration"; "release";
     "--build-path"; "/work/build/swift-backtrace";
     "--package-path"; "/work/swift/tools/swift-backtrace";
     "--install-path"; "/work/install/linux-x86_64/usr/libexec/swift";
     "--verbose"].
Proof. reflexivity. Qed.

(** ** The assembled argument vector *)

(** C4: for the build action, product swift-backtrace and the scenario's
    configuration (release, not verbose, /src/pkg, /tmp/out,
    /opt/toolchain) the assembled vector is exactly the ten strings of the
    scenario, and it is the vector [main] hands to the child process. *)
Theorem build_scenario_vector :
  get_args_for_swift scenario "build" "swift-backtrace" [] =
    ["/opt/toolchain/bin/swift"; "build"; "--package-path"; "/src/pkg";
     "--scratch-path"; "/tmp/out"; "--configuration"; "release";
     "--product"; "swift-backtrace"]
  /\ forall sys w,
       trace (snd (main sys scenario w)) =
         trace w ++
         [Call ["/opt/toolchain/bin/swift"; "build"; "--package-path"; "/src/pkg";
                "--scratch-path"; "/tmp/out"; "--configuration"; "release";
                "--product"; "swift-backtrace"]].
Proof.
  split; [reflexivity |].
  intros sys w. unfold main, invoke_swift, bind, subprocess_call. cbn.
  destruct (sys _ _); reflexivity.
Qed.

(** *** The compiler path is never a flag *)

Lemma last_byte_append (y : string) (c : ascii) (z : string) :
  last_byte (y +:+ String c z) = last_byte (String c z).
Proof.
  induction y as [| d y IH]; [reflexivity |].
  rewrite <- IH. simpl.
  destruct (y +:+ String c z) eqn:E; [| reflexivity].
  destruct y; discriminate E.
Qed.

Lemma join_step_last (path : string) (c : ascii) (z : string) :
  c <> "/"%char ->
  last_byte (PosixPath.join_step path (String c z)) = last_byte (String c z).
Proof.
  intros Hc. unfold PosixPath.join_step.
  assert (PosixPath.starts_with_sep (String c z) = false) as ->.
  { cbn. destruct (Ascii.eqb_spec c "/"); [contradiction |].
    destruct c as [[] [] [] [] [] [] [] []]; try reflexivity. congruence. }
  destruct (_ || _).
  - apply last_byte_append.
  - change (path +:+ "/" +:+ String c z) with (path +:+ String "/" (String c z)).
    rewrite last_byte_append. reflexivity.
Qed.

Lemma swift_path_last (args : Namespace) :
  last_byte (swift_path args) = Some "t"%char.
Proof.
  unfold swift_path, PosixPath.join. cbn [fold_left].
  rewrite join_step_last by discriminate. reflexivity.
Qed.

Lemma swift_path_neq (args : Namespace) (f : string) :
  last_byte f <> Some "t"%char -> String.eqb f (swift_path args) = false.
Proof.
  intros Hf. apply String.eqb_neq. intros ->.
  apply Hf, swift_path_last.
Qed.

(** *** Counting in a vector *)

Lemma count_app (x : string) (u v : list string) :
  count x (u ++ v) = count x u + count x v.
Proof. unfold count. rewrite List.filter_app, length_app. reflexivity. Qed.

Lemma count_cons (x y : string) (v : list string) :
  count x (y :: v) = (if String.eqb x y then 1 else 0) + count x v.
Proof. unfold count. cbn. destruct (String.eqb x y); reflexivity. Qed.

Lemma count_absent (x : string) (v : list string) :
  existsb (String.eqb x) v = false -> count x v = 0.
Proof.
  induction v as [| y v IH]; [reflexivity |].
  cbn [existsb]. intros [Hy Hv]%orb_false_elim.
  rewrite count_cons, Hy, IH by exact Hv. reflexivity.
Qed.

Lemma count_zero_not_in (x : string) (v : list string) :
  count x v = 0 -> ~ In x v.
Proof.
  induction v as [| y v IH]; [intros _ [] |].
  rewrite count_cons. destruct (String.eqb_spec x y) as [-> | Hne]; [discriminate |].
  cbn. intros Hv [Heq | Hin]; [congruence | exact (IH Hv Hin)].
Qed.

Lemma parsed_configuration (args : Namespace) :
  parsed args = true ->
  configuration args = "debug" \/ configuration args = "release".
Proof.
  unfold parsed. cbn. rewrite orb_false_r.
  intros [Hd | Hr]%orb_true_iff.
  - left. apply String.eqb_eq, Hd.
  - right. apply String.eqb_eq, Hr.
Qed.

Lemma build_action_cases (a : string) :
  build_action a = true -> a = "build" \/ a = "test" \/ a = "install".
Proof.
  unfold build_action. cbn. rewrite orb_false_r.
  intros [Hb | [Ht | Hi]%orb_true_iff]%orb_true_iff;
    [left | right; left | right; right]; apply String.eqb_eq; assumption.
Qed.

Lemma not_common_flag (s : string) :
  is_common_flag s = false ->
  String.eqb "--package-path" s = false
  /\ String.eqb "--scratch-path" s = false
  /\ String.eqb "--configuration" s = false.
Proof.
  unfold is_common_flag. cbn. rewrite orb_false_r.
  intros [Hp [Hs Hc]%orb_false_elim]%orb_false_elim. auto.
Qed.

(** The vector as one concatenation around the caller's extra arguments. *)
Lemma get_args_for_swift_eq (args : Namespace) (a p : string) (extra : list string) :
  get_args_for_swift args a p extra =
    [swift_path args; a; "--package-path"; package_path args;
     "--scratch-path"; build_path args; "--configuration"; configuration args]
    ++ extra ++ [product_flag a; p]
    ++ (if verbose args then ["--verbose"] else []).
Proof.
  unfold get_args_for_swift, product_flag.
  destruct (String.eqb a "test"), (verbose args);
    rewrite <- ?app_assoc, ?app_nil_r; reflexivity.
Qed.

(** C2, as stated, fails for a product that is named like a flag: the
    vector for the product "--configuration" holds that string twice.  The
    same happens for the product swift-backtrace when a path is spelled
    like a flag. *)
Lemma flag_named_product_counted_twice :
  get_args_for_swift scenario "build" "--configuration" [] =
    ["/opt/toolchain/bin/swift"; "build"; "--package-path"; "/src/pkg";
     "--scratch-path"; "/tmp/out"; "--configuration"; "release";
     "--product"; "--configuration"]
  /\ build_action "build" = true
  /\ parsed scenario = true
  /\ ~ flags_in_order "build" "--configuration"
         (get_args_for_swift scenario "build" "--configuration" [])
  /\ parsed flag_paths_scenario = true
  /\ ~ flags_in_order "build" "swift-backtrace"
         (get_args_for_swift flag_paths_scenario "build" "swift-backtrace" []).
Proof.
  do 3 (split; [reflexivity |]). split; [| split; [reflexivity |]].
  - intros (_ & _ & Hc & _). vm_compute in Hc. discriminate Hc.
  - intros (_ & _ & Hc & _). vm_compute in Hc. discriminate Hc.
Qed.

(** C2 (amended): for every action in build, test, install, every parsed
    configuration and every product, where the product name, the package
    path, the build path and the extra arguments are none of the three
    flag strings, the vector holds --package-path, --scratch-path and
    --configuration once each, in that order, followed by --test-product P
    for test and --product P for build and install. *)
Theorem common_flags_once_in_order
    (args : Namespace) (a p : string) (extra : list string) :
  build_action a = true ->
  parsed args = true ->
  is_common_flag p = false ->
  is_common_flag (package_path args) = false ->
  is_common_flag (build_path args) = false ->
  existsb is_common_flag extra = false ->
  flags_in_order a p (get_args_for_swift args a p extra).
Proof.
  intros Ha Hargs Hp Hpkg Hbld Hextra.
  destruct (not_common_flag _ Hp) as (Hp1 & Hp2 & Hp3).
  destruct (not_common_flag _ Hpkg) as (Hk1 & Hk2 & Hk3).
  destruct (not_common_flag _ Hbld) as (Hb1 & Hb2 & Hb3).
  assert (forall f, In f common_flags -> count f extra = 0) as Hx.
  { intros f Hf. apply count_absent.
    induction extra as [| e extra IH]; [reflexivity |].
    cbn [existsb] in *. apply orb_false_elim in Hextra as [He Hextra].
    rewrite (IH Hextra), orb_false_r.
    destruct (not_common_flag _ He) as (He1 & He2 & He3).
    cbn in Hf. destruct Hf as [<- | [<- | [<- | []]]]; assumption. }
  assert (forall f, In f common_flags -> String.eqb f (swift_path args) = false) as Hsw.
  { intros f Hf. apply swift_path_neq.
    cbn in Hf. destruct Hf as [<- | [<- | [<- | []]]]; discriminate. }
  assert (forall f, In f common_flags -> String.eqb f (configuration args) = false) as Hcf.
  { intros f Hf. cbn in Hf.
    destruct (parsed_configuration _ Hargs) as [-> | ->];
      destruct Hf as [<- | [<- | [<- | []]]]; reflexivity. }
  assert (forall f, In f common_flags ->
            String.eqb f a = false /\ String.eqb f (product_flag a) = false) as Hact.
  { intros f Hf. cbn in Hf.
    destruct (build_action_cases _ Ha) as [-> | [-> | ->]];
      destruct Hf as [<- | [<- | [<- | []]]]; split; reflexivity. }
  assert (forall f, In f common_flags ->
            count f (if verbose args then ["--verbose"] else []) = 0) as Hv.
  { intros f Hf. cbn in Hf.
    destruct (verbose args); destruct Hf as [<- | [<- | [<- | []]]]; reflexivity. }
  rewrite get_args_for_swift_eq.
  repeat split.
  - rewrite !count_app, !count_cons, Hx, Hv, Hsw, Hcf, Hk1, Hb1, Hp1 by (cbn; auto).
    destruct (Hact "--package-path") as [-> ->]; [cbn; auto |]. reflexivity.
  - rewrite !count_app, !count_cons, Hx, Hv, Hsw, Hcf, Hk2, Hb2, Hp2 by (cbn; auto).
    destruct (Hact "--scratch-path") as [-> ->]; [cbn; auto |]. reflexivity.
  - rewrite !count_app, !count_cons, Hx, Hv, Hsw, Hcf, Hk3, Hb3, Hp3 by (cbn; auto).
    destruct (Hact "--configuration") as [-> ->]; [cbn; auto |]. reflexivity.
  - exists [swift_path args; a], [package_path args], [build_path args],
      (configuration args :: extra), (if verbose args then ["--verbose"] else []).
    reflexivity.
Qed.

Lemma common_flags_once_in_order_witness :
  build_action "test" = true
  /\ parsed verbose_scenario = true
  /\ is_common_flag "swift-backtrace" = false
  /\ existsb is_common_flag ["--show-bin-path"] = false
  /\ flags_in_order "test" "swift-backtrace"
       (get_args_for_swift verbose_scenario "test" "swift-backtrace"
          ["--show-bin-path"]).
Proof.
  do 4 (split; [reflexivity |]).
  apply (common_flags_once_in_order
           verbose_scenario "test" "swift-backtrace" ["--show-bin-path"]);
    reflexivity.
Defined.

(** C5, as stated, fails for a product named "--verbose": with verbosity
    off the string is in the vector all the same, as the product name.  So
    it is for the product swift-backtrace when the package path is spelled
    "--verbose". *)
Lemma verbose_named_product_present :
  get_args_for_swift scenario "build" "--verbose" [] =
    ["/opt/toolchain/bin/swift"; "build"; "--package-path"; "/src/pkg";
     "--scratch-path"; "/tmp/out"; "--configuration"; "release";
     "--product"; "--verbose"]
  /\ verbose scenario = false
  /\ ~ verbose_flag_last (verbose scenario)
         (get_args_for_swift scenario "build" "--verbose" [])
  /\ verbose flag_paths_scenario = false
  /\ ~ verbose_flag_last (verbose flag_paths_scenario)
         (get_args_for_swift flag_paths_scenario "build" "swift-backtrace" []).
Proof.
  do 2 (split; [reflexivity |]). split; [| split; [reflexivity |]].
  - intros [[Hin _] _]. cbn in Hin.
    enough (false = true) by discriminate.
    apply Hin. do 9 right. left. reflexivity.
  - intros [[Hin _] _]. cbn in Hin.
    enough (false = true) by discriminate.
    apply Hin. do 3 right. left. reflexivity.
Qed.

(** C5 (amended): for every action in build, test, install and every
    parsed configuration, where the product name, the package path, the
    build path and the extra arguments are not the string --verbose, the
    flag --verbose is in the vector if and only if the configuration's
    verbose field is true, and when present it is the last element and
    occurs nowhere before. *)
Theorem verbose_flag_iff_configured
    (args : Namespace) (a p : string) (extra : list string) :
  build_action a = true ->
  parsed args = true ->
  String.eqb "--verbose" p = false ->
  String.eqb "--verbose" (package_path args) = false ->
  String.eqb "--verbose" (build_path args) = false ->
  existsb (String.eqb "--verbose") extra = false ->
  verbose_flag_last (verbose args) (get_args_for_swift args a p extra).
Proof.
  intros Ha Hargs Hp Hpkg Hbld Hextra.
  set (front := [swift_path args; a; "--package-path"; package_path args;
                 "--scratch-path"; build_path args; "--configuration";
                 configuration args] ++ extra ++ [product_flag a; p]).
  assert (~ In "--verbose" front) as Hfront.
  { apply count_zero_not_in. unfold front.
    rewrite !count_app, !count_cons, (count_absent _ _ Hextra), Hp, Hpkg, Hbld.
    rewrite swift_path_neq by discriminate.
    destruct (parsed_configuration _ Hargs) as [-> | ->];
      destruct (build_action_cases _ Ha) as [-> | [-> | ->]]; reflexivity. }
  assert (get_args_for_swift args a p extra =
          front ++ (if verbose args then ["--verbose"] else [])) as ->.
  { rewrite get_args_for_swift_eq. unfold front.
    rewrite <- !app_assoc. reflexivity. }
  destruct (verbose args).
  - split.
    + split; [reflexivity |]. intros _. apply in_or_app. right. left. reflexivity.
    + intros _. exists front. split; [reflexivity | exact Hfront].
  - rewrite app_nil_r. split.
    + split; [intros Hin; destruct (Hfront Hin) | discriminate].
    + intros Hin. destruct (Hfront Hin).
Qed.

Lemma verbose_flag_iff_configured_witness :
  build_action "test" = true
  /\ parsed verbose_scenario = true
  /\ String.eqb "--verbose" "swift-backtrace" = false
  /\ verbose_flag_last (verbose verbose_scenario)
       (get_args_for_swift verbose_scenario "test" "swift-backtrace" []).
Proof.
  do 3 (split; [reflexivity |]).
  apply (verbose_flag_iff_configured verbose_scenario "test" "swift-backtrace" []);
    reflexivity.
Defined.

(** ** Running the child processes *)

Lemma invoke_swift_exited (sys : programs) (args : Namespace) (a p : string)
    (extra : list string) (w : world) (returncode : Z) (stdout : string)
    (fs_after : gmap string node) :
  sys (get_args_for_swift args a p extra) (fs w) = Exited returncode stdout fs_after ->
  invoke_swift sys args a p extra w =
    (Ok tt, {| fs := fs_after;
               trace := trace w ++ [Call (get_args_for_swift args a p extra)];
               cwd := cwd w |}).
Proof.
  intros Hsys. unfold invoke_swift, bind, subprocess_call.
  cbn [record fs trace]. rewrite Hsys. reflexivity.
Qed.

Lemma main_install (sys : programs) (args : Namespace) :
  action args = "install" ->
  main sys args =
    (invoke_swift sys args "build" "swift-backtrace" [] ;;; after_build sys args).
Proof. intros Ha. unfold main. rewrite Ha. reflexivity. Qed.

(** C1, as stated, fails: a build whose child exits with code 1 leaves
    the tool's exit status at 0. *)
Lemma failed_build_exits_zero :
  failing_toolchain (first_command scenario) (fs empty_world) = Exited 1 "" ∅
  /\ fst (run failing_toolchain scenario empty_world) = 0%Z
  /\ ~ exit_code_propagated failing_toolchain scenario empty_world.
Proof.
  split; [reflexivity |]. split; [reflexivity |].
  intros H. specialize (H 1%Z "" ∅ eq_refl). discriminate H.
Qed.

(** C1 (amended): for every action in build, test, install and every
    configuration, invoke runs the assembled vector as a child
    process and returns nothing, dropping the child's exit code: when the
    child runs to its exit, with whatever code, the tool ends with exit
    status 0 for build and test, and for install goes on with the steps
    after the build. *)
Theorem exit_code_dropped (sys : programs) (args : Namespace) (w : world)
    (returncode : Z) (stdout : string) (fs_after : gmap string node) :
  build_action (action args) = true ->
  sys (first_command args) (fs w) = Exited returncode stdout fs_after ->
  let w' := {| fs := fs_after; trace := trace w ++ [Call (first_command args)];
               cwd := cwd w |} in
  invoke_swift sys args (first_verb args) "swift-backtrace" [] w = (Ok tt, w')
  /\ (if String.eqb (action args) "install"
      then main sys args w = after_build sys args w'
      else run sys args w = (0%Z, w')).
Proof.
  intros Ha Hsys w'.
  pose proof (invoke_swift_exited _ _ _ _ _ _ _ _ _ Hsys) as Hinv.
  fold (first_command args) in Hinv. fold w' in Hinv.
  split; [exact Hinv |].
  unfold first_verb in Hinv. unfold run.
  destruct (build_action_cases _ Ha) as [Hb | [Ht | Hi]].
  - rewrite Hb in Hinv |- *. unfold main. rewrite Hb.
    cbn [String.eqb Ascii.eqb Bool.eqb] in Hinv |- *.
    rewrite Hinv. reflexivity.
  - rewrite Ht in Hinv |- *. unfold main. rewrite Ht.
    cbn [String.eqb Ascii.eqb Bool.eqb] in Hinv |- *.
    rewrite Hinv. reflexivity.
  - rewrite Hi in Hinv |- *. cbn [String.eqb Ascii.eqb Bool.eqb] in Hinv |- *.
    rewrite (main_install _ _ Hi). unfold bind at 1. rewrite Hinv. reflexivity.
Qed.

Lemma exit_code_dropped_witness :
  build_action (action scenario) = true
  /\ failing_toolchain (first_command scenario) (fs empty_world) = Exited 1 "" ∅
  /\ run failing_toolchain scenario empty_world =
       (0%Z, {| fs := ∅; trace := [Call (first_command scenario)]; cwd := "/" |}).
Proof.
  split; [reflexivity |]. split; [reflexivity |].
  apply (exit_code_dropped failing_toolchain scenario empty_world 1 "" ∅);
    reflexivity.
Defined.

(** ** Resolving the path of the built binary *)

(** C3, as stated, fails for empty output: a query that exits with code 0
    and prints nothing makes [get_binary_path] return the relative path
    swift-backtrace instead of failing. *)
Lemma empty_output_resolves :
  silent_toolchain (query_command scenario "swift-backtrace") (fs empty_world)
    = Exited 0 "" ∅
  /\ fst (get_binary_path silent_toolchain scenario "swift-backtrace" empty_world)
       = Ok "swift-backtrace"
  /\ ~ resolution_fails silent_toolchain scenario "swift-backtrace" empty_world.
Proof.
  split; [reflexivity |]. split; [reflexivity |].
  intros H. destruct (H 0%Z "" ∅ eq_refl (or_intror eq_refl)) as [e He].
  discriminate He.
Qed.

(** C3 (amended): [get_binary_path] fails with [CalledProcessError]
    whenever the query child exits non-zero; when the query exits with
    code 0 and its output is empty once stripped, it does not fail but
    returns the relative path swift-backtrace. *)
Theorem binary_path_of_failed_or_empty_query
    (sys : programs) (args : Namespace) (product : string) (w : world)
    (returncode : Z) (stdout : string) (fs_after : gmap string node) :
  sys (query_command args product) (fs w) = Exited returncode stdout fs_after ->
  returncode <> 0%Z \/ Bytes.strip stdout = "" ->
  fst (get_binary_path sys args product w) =
    (if Z.eqb returncode 0
     then Ok "swift-backtrace"
     else Raise (CalledProcessError returncode (query_command args product))).
Proof.
  intros Hsys Hcase.
  unfold get_binary_path, bind, subprocess_check_output.
  fold (query_command args product). cbn [record fs trace]. rewrite Hsys.
  destruct (Z.eqb_spec returncode 0) as [-> | Hne]; [| reflexivity].
  destruct Hcase as [Hnz | Hempty]; [contradiction |].
  rewrite Hempty. reflexivity.
Qed.

Lemma binary_path_of_failed_or_empty_query_witness :
  failing_toolchain (query_command scenario "swift-backtrace") (fs empty_world)
    = Exited 1 "" ∅
  /\ fst (get_binary_path failing_toolchain scenario "swift-backtrace" empty_world)
       = Raise (CalledProcessError 1 (query_command scenario "swift-backtrace")).
Proof.
  split; [reflexivity |].
  apply (binary_path_of_failed_or_empty_query
           failing_toolchain scenario "swift-backtrace" empty_world 1 "" ∅).
  - reflexivity.
  - left. lia.
Defined.

(** ** Looking paths up *)

(** *** Strings and components *)

Lemma string_app_assoc (a b c : string) :
  (a +:+ b) +:+ c = a +:+ (b +:+ c).
Proof.
  induction a as [| x a IH]; [reflexivity |].
  change (String x ((a +:+ b) +:+ c) = String x (a +:+ (b +:+ c))).
  f_equal. exact IH.
Qed.

Lemma string_app_empty_r (a : string) : a +:+ "" = a.
Proof.
  induction a as [| x a IH]; [reflexivity |].
  change (String x (a +:+ "") = String x a). f_equal. exact IH.
Qed.

Lemma is_empty_append (u : string) (c : ascii) (z : string) :
  PosixPath.is_empty (u +:+ String c z) = false.
Proof. destruct u; reflexivity. Qed.

Lemma is_empty_true (s : string) : PosixPath.is_empty s = true -> s = "".
Proof. destruct s; [reflexivity | discriminate]. Qed.

Lemma starts_with_sep_prefix (a b : string) :
  PosixPath.is_empty a = false ->
  PosixPath.starts_with_sep (a +:+ b) = PosixPath.starts_with_sep a.
Proof. destruct a as [| c a]; [discriminate | reflexivity]. Qed.

Lemma split_sep_not_nil (s : string) : PosixPath.split_sep s <> [].
Proof.
  destruct s as [| c s]; [discriminate |].
  cbn. destruct (Ascii.eqb c "/"); [discriminate |].
  destruct (PosixPath.split_sep s); discriminate.
Qed.

Lemma split_sep_append_sep (y z : string) :
  PosixPath.split_sep (y +:+ String "/" z) =
    PosixPath.split_sep y ++ PosixPath.split_sep z.
Proof.
  induction y as [| c y IH]; [reflexivity |].
  change (String c y +:+ String "/" z) with (String c (y +:+ String "/" z)).
  cbn [PosixPath.split_sep]. rewrite IH.
  destruct (Ascii.eqb c "/"); [reflexivity |].
  pose proof (split_sep_not_nil y) as Hy.
  destruct (PosixPath.split_sep y) as [| comp comps]; [contradiction |].
  reflexivity.
Qed.

Lemma split_sep_seps (k : nat) : PosixPath.split_sep (seps k) = repeat "" (S k).
Proof. induction k as [| k IH]; [reflexivity |]. cbn. rewrite IH. reflexivity. Qed.

Lemma split_sep_append_seps (x : string) (k : nat) :
  PosixPath.split_sep (x +:+ seps k) = PosixPath.split_sep x ++ repeat "" k.
Proof.
  destruct k as [| k].
  - cbn. rewrite string_app_empty_r, app_nil_r. reflexivity.
  - cbn [seps]. rewrite split_sep_append_sep, split_sep_seps. reflexivity.
Qed.

Lemma ascii_eqb_sep (c : ascii) : Ascii.eqb c "/" = true -> c = "/"%char.
Proof. apply Ascii.eqb_eq. Qed.

Lemma rstrip_sep_spec (h : string) :
  exists k, h = PosixPath.rstrip_sep h +:+ seps k.
Proof.
  induction h as [| c r [k IH]]; [exists 0; reflexivity |].
  cbn [PosixPath.rstrip_sep].
  destruct (PosixPath.rstrip_sep r) as [| d kept] eqn:E.
  - change (r = seps k) in IH. destruct (Ascii.eqb c "/") eqn:Ec.
    + apply ascii_eqb_sep in Ec. subst c. exists (S k). rewrite IH. reflexivity.
    + exists k. rewrite IH. reflexivity.
  - exists k. rewrite IH at 1. reflexivity.
Qed.

Lemma all_sep_spec (h : string) :
  PosixPath.all_sep h = true -> exists k, h = seps k.
Proof.
  induction h as [| c r IH]; [exists 0; reflexivity |].
  cbn. intros [Hc Hr]%andb_true_iff.
  apply ascii_eqb_sep in Hc. subst c.
  destruct (IH Hr) as [k ->]. exists (S k). reflexivity.
Qed.

Lemma cut_at_last_sep_spec (p h t : string) :
  PosixPath.cut_at_last_sep p = (h, t) ->
  p = h +:+ t /\ (h = "" \/ exists y, h = y +:+ "/").
Proof.
  revert h t. induction p as [| c rest IH]; intros h t.
  - cbn. intros [= <- <-]. split; [reflexivity | left; reflexivity].
  - cbn [PosixPath.cut_at_last_sep].
    destruct (PosixPath.cut_at_last_sep rest) as [h' t'] eqn:E.
    destruct (IH h' t' eq_refl) as [Hrest Hh'].
    destruct (PosixPath.is_empty h') eqn:Hempty.
    + apply is_empty_true in Hempty. subst h'. change (rest = t') in Hrest. subst t'.
      destruct (Ascii.eqb c "/") eqn:Ec; intros [= <- <-].
      * apply ascii_eqb_sep in Ec. subst c.
        split; [reflexivity | right; exists ""; reflexivity].
      * split; [reflexivity | left; reflexivity].
    + intros [= <- <-].
      split; [change (String c rest = String c (h' +:+ t')); rewrite <- Hrest; reflexivity |].
      right. destruct Hh' as [-> | [y ->]]; [discriminate |].
      exists (String c y). reflexivity.
Qed.

Lemma has_nul_append (a b : string) :
  has_nul (a +:+ b) = has_nul a || has_nul b.
Proof.
  induction a as [| c a IH]; [reflexivity |].
  change (Ascii.eqb c zero || has_nul (a +:+ b)
          = (Ascii.eqb c zero || has_nul a) || has_nul b).
  rewrite IH, orb_assoc. reflexivity.
Qed.

Lemma has_nul_seps (k : nat) : has_nul (seps k) = false.
Proof. induction k as [| k IH]; [reflexivity | exact IH]. Qed.

(** *** Walking *)

Lemma walk_app (f : gmap string node) (s : list string) (l1 l2 : list string) :
  walk f s (l1 ++ l2) =
    match walk f s l1 with
    | At s' => walk f s' l2
    | failed => failed
    end.
Proof.
  revert s. induction l1 as [| c l1 IH]; intros s; [reflexivity |].
  cbn [app walk]. destruct (step f s c); [apply IH | reflexivity | reflexivity].
Qed.

Lemma step_at (f : gmap string node) (s : list string) (c : string) (s' : list string) :
  step f s c = At s' ->
  node_at f s = Some Dir /\ exists n, node_at f s' = Some n.
Proof.
  unfold step. destruct (node_at f s) as [[| content] |] eqn:Es; try discriminate.
  destruct (_ || _).
  - intros [= Heq]. subst s'. split; [reflexivity | exists Dir; exact Es].
  - destruct (node_at f (if String.eqb c ".." then tl s else c :: s))
      as [n |] eqn:En; [| discriminate].
    intros [= Heq]. subst s'. split; [reflexivity | exists n; exact En].
Qed.

Lemma step_empty (f : gmap string node) (s : list string) :
  node_at f s = Some Dir -> step f s "" = At s.
Proof. intros H. unfold step. rewrite H. reflexivity. Qed.

Lemma walk_empties (f : gmap string node) (s : list string) (k : nat) :
  node_at f s = Some Dir -> walk f s (repeat "" k) = At s.
Proof.
  intros H. induction k as [| k IH]; [reflexivity |].
  cbn [repeat walk]. rewrite (step_empty f s H). exact IH.
Qed.

(** A walk that arrives somewhere from a directory or by a step arrives
    at something that is there. *)
Lemma walk_at (f : gmap string node) (s : list string) (l : list string)
    (s' : list string) :
  walk f s l = At s' -> l <> [] ->
  node_at f s = Some Dir /\ exists n, node_at f s' = Some n.
Proof.
  revert s. induction l as [| c l IH]; intros s Hw Hne; [contradiction |].
  cbn [walk] in Hw. destruct (step f s c) as [s1 | |] eqn:Es; try discriminate.
  destruct (step_at _ _ _ _ Es) as [Hs [n1 Hn1]].
  split; [exact Hs |].
  destruct l as [| c' l'].
  - cbn in Hw. injection Hw as <-. exists n1. exact Hn1.
  - destruct (IH s1 Hw ltac:(discriminate)) as [_ Hn]. exact Hn.
Qed.

(** *** What is there *)

Lemma path_exists_inv (f : gmap string node) (cwd p : string) :
  path_exists f cwd p = true ->
  has_nul p = false
  /\ PosixPath.is_empty p = false
  /\ exists s n,
       walk f (start cwd p) (PosixPath.split_sep p) = At s
       /\ node_at f s = Some n.
Proof.
  unfold path_exists, lookup_path.
  intros [Hnul Hfound]%andb_true_iff. apply negb_true_iff in Hnul.
  destruct (PosixPath.is_empty p); [discriminate |].
  destruct (walk f _ _) as [s | |] eqn:Ew; try discriminate.
  destruct (node_at f s) as [n |] eqn:En; [| discriminate].
  eauto 6.
Qed.

Lemma path_exists_intro (f : gmap string node) (cwd p : string)
    (s : list string) (n : node) :
  has_nul p = false ->
  PosixPath.is_empty p = false ->
  walk f (start cwd p) (PosixPath.split_sep p) = At s ->
  node_at f s = Some n ->
  path_exists f cwd p = true.
Proof.
  intros Hnul Hne Hw Hn. unfold path_exists, lookup_path.
  rewrite Hnul, Hne, Hw, Hn. reflexivity.
Qed.

(** When a path is there, so is one whose components are a front part of
    its components, with separators behind or not. *)
Lemma path_exists_front (f : gmap string node) (cwd p q : string)
    (l1 l2 : list string) (j : nat) :
  path_exists f cwd p = true ->
  PosixPath.is_empty q = false ->
  has_nul q = false ->
  start cwd q = start cwd p ->
  PosixPath.split_sep q = l1 ++ repeat "" j ->
  PosixPath.split_sep p = l1 ++ l2 ->
  (l2 = [] -> j = 0) ->
  path_exists f cwd q = true.
Proof.
  intros (_ & _ & s & n & Hw & Hn)%path_exists_inv Hne Hnul Hstart Hq Hp Hj.
  rewrite Hp, walk_app in Hw. rewrite <- Hstart in Hw.
  destruct (walk f (start cwd q) l1) as [s1 | |] eqn:E1; try discriminate.
  destruct l2 as [| c l2].
  - rewrite (Hj eq_refl) in Hq. cbn in Hq, Hw. rewrite app_nil_r in Hq.
    injection Hw as ->.
    apply (path_exists_intro f cwd q s n Hnul Hne); [rewrite Hq; exact E1 | exact Hn].
  - destruct (walk_at _ _ _ _ Hw ltac:(discriminate)) as [Hdir _].
    apply (path_exists_intro f cwd q s1 Dir Hnul Hne); [| exact Hdir].
    rewrite Hq, walk_app, E1. apply walk_empties, Hdir.
Qed.

Lemma path_exists_split_head (f : gmap string node) (cwd p head tail : string) :
  PosixPath.split p = (head, tail) ->
  PosixPath.is_empty head = false ->
  path_exists f cwd p = true ->
  path_exists f cwd head = true.
Proof.
  unfold PosixPath.split.
  destruct (PosixPath.cut_at_last_sep p) as [h t] eqn:Ecut.
  destruct (cut_at_last_sep_spec _ _ _ Ecut) as [Hp Hh].
  intros [= <- <-] Hne Hex.
  destruct (path_exists_inv _ _ _ Hex) as (Hnul & _ & _).
  rewrite Hp, has_nul_append in Hnul. apply orb_false_elim in Hnul as [Hnul_h _].
  assert (PosixPath.is_empty h = false) as Hh_ne.
  { destruct h; [| reflexivity]. cbn in Hne. discriminate Hne. }
  assert (path_exists f cwd h = true) as Hex_h.
  { destruct Hh as [-> | [y ->]]; [discriminate |].
    apply (path_exists_front f cwd p (y +:+ "/") (PosixPath.split_sep y)
             (PosixPath.split_sep t) 1 Hex Hh_ne Hnul_h).
    - unfold start. rewrite Hp, (starts_with_sep_prefix (y +:+ "/") t Hh_ne). reflexivity.
    - rewrite (split_sep_append_sep y ""). reflexivity.
    - rewrite Hp, string_app_assoc. apply (split_sep_append_sep y t).
    - intros Ht. destruct (split_sep_not_nil t Ht). }
  rewrite Hh_ne in Hne |- *. cbn [negb andb] in Hne |- *.
  destruct (PosixPath.all_sep h); cbn [negb] in Hne |- *; [exact Hex_h |].
  destruct (rstrip_sep_spec h) as [k Hk].
  assert (has_nul (PosixPath.rstrip_sep h) = false) as Hnul_r.
  { rewrite Hk, has_nul_append in Hnul_h. apply orb_false_elim in Hnul_h as [H _]. exact H. }
  apply (path_exists_front f cwd h (PosixPath.rstrip_sep h)
           (PosixPath.split_sep (PosixPath.rstrip_sep h)) (repeat "" k) 0
           Hex_h Hne Hnul_r).
  - unfold start. rewrite Hk at 2.
    rewrite (starts_with_sep_prefix (PosixPath.rstrip_sep h) (seps k) Hne). reflexivity.
  - cbn. rewrite app_nil_r. reflexivity.
  - rewrite Hk at 1. apply split_sep_append_seps.
  - reflexivity.
Qed.

(** *** The last component *)

Lemma drop_trailing_empty_spec (l : list string) :
  exists k, l = drop_trailing_empty l ++ repeat "" k.
Proof.
  induction l as [| c l [k IH]]; [exists 0; reflexivity |].
  cbn [drop_trailing_empty].
  destruct (drop_trailing_empty l) as [| d kept] eqn:E.
  - change (l = repeat "" k) in IH. destruct (PosixPath.is_empty c) eqn:Ec.
    + apply is_empty_true in Ec. subst c. exists (S k). rewrite IH. reflexivity.
    + exists k. rewrite IH. reflexivity.
  - exists k. rewrite IH at 1. reflexivity.
Qed.

Lemma split_last_spec (l front : list string) (last : string) :
  split_last l = Some (front, last) -> l = front ++ [last].
Proof.
  revert front. induction l as [| x l IH]; intros front; [discriminate |].
  cbn [split_last]. destruct (split_last l) as [[front' last'] |] eqn:E.
  - intros [= <- <-]. cbn. rewrite (IH front' eq_refl). reflexivity.
  - intros [= <- <-]. destruct l as [| y l']; [reflexivity |].
    cbn in E. destruct (split_last l') as [[? ?] |]; discriminate E.
Qed.

Lemma drop_trailing_empty_last (l front : list string) (last : string) :
  drop_trailing_empty l = front ++ [last] -> PosixPath.is_empty last = false.
Proof.
  revert front. induction l as [| c l IH]; intros front.
  - cbn. destruct front; discriminate.
  - cbn [drop_trailing_empty].
    destruct (drop_trailing_empty l) as [| d kept] eqn:E.
    + destruct (PosixPath.is_empty c) eqn:Ec; [destruct front; discriminate |].
      destruct front as [| x [| y front']]; intros Heq; try discriminate Heq.
      injection Heq as Heq. subst c. exact Ec.
    + destruct front as [| x front']; intros Heq; [discriminate Heq |].
      injection Heq as _ H. apply (IH front'). exact H.
Qed.

(** The parent and the name of a path lead to where the path leads. *)
Lemma parent_and_name_walk (f : gmap string node) (s0 : list string) (p : string)
    (parent : list string) (name : string) (s : list string) :
  parent_and_name p = Some (parent, name) ->
  walk f s0 (PosixPath.split_sep p) = At s ->
  PosixPath.is_empty name = false
  /\ exists sp,
       walk f s0 parent = At sp
       /\ node_at f sp = Some Dir
       /\ exists sn, step f sp name = At sn.
Proof.
  unfold parent_and_name. intros Hsplit Hw.
  apply split_last_spec in Hsplit.
  destruct (drop_trailing_empty_spec (PosixPath.split_sep p)) as [k Hk].
  split; [exact (drop_trailing_empty_last _ _ _ Hsplit) |].
  rewrite Hk, Hsplit, <- app_assoc, walk_app in Hw.
  destruct (walk f s0 parent) as [sp | |] eqn:Ep; try discriminate.
  exists sp. split; [reflexivity |].
  cbn [app walk] in Hw.
  destruct (step f sp name) as [sn | |] eqn:Es; try discriminate.
  destruct (step_at _ _ _ _ Es) as [Hdir _].
  split; [exact Hdir | exists sn; reflexivity].
Qed.

(** *** Making a directory that is there *)

Lemma mkdir_existing (p : string) (w : world) :
  path_exists (fs w) (cwd w) p = true ->
  mkdir p w = (Raise (FileExistsError p), w).
Proof.
  intros (Hnul & Hne & s & n & Hw & _)%path_exists_inv.
  unfold mkdir. rewrite Hnul, Hne.
  destruct (parent_and_name p) as [[parent name] |] eqn:Epn; [| reflexivity].
  destruct (parent_and_name_walk _ _ _ _ _ _ Epn Hw)
    as (Hname & sp & Hparent & Hdir & sn & Hstep).
  rewrite Hparent, Hdir.
  destruct (is_dot_or_dotdot name) eqn:Edot; [reflexivity |].
  unfold is_dot_or_dotdot in Edot. apply orb_false_elim in Edot as [Hdot Hdotdot].
  assert (String.eqb name "" = false) as Hnot_empty.
  { destruct name; [discriminate Hname | reflexivity]. }
  unfold step in Hstep. rewrite Hdir, Hnot_empty, Hdot, Hdotdot in Hstep.
  cbn [orb] in Hstep.
  destruct (node_at (fs w) (name :: sp)); [reflexivity | discriminate Hstep].
Qed.

Lemma makedirs_step_existing (recur : string -> M unit) (name : string) (w : world) :
  path_exists (fs w) (cwd w) name = true ->
  makedirs_step recur name w = (Raise (FileExistsError name), w).
Proof.
  intros Hex. unfold makedirs_step.
  destruct (PosixPath.split name) as [head tail] eqn:E1.
  assert (PosixPath.is_empty head = false -> path_exists (fs w) (cwd w) head = true)
    as Hhead by (intros Hne; exact (path_exists_split_head _ _ _ _ _ E1 Hne Hex)).
  destruct (PosixPath.is_empty tail).
  - destruct (PosixPath.split head) as [head2 tail2] eqn:E2.
    destruct (PosixPath.is_empty head2) eqn:Hh2; [apply mkdir_existing, Hex |].
    assert (PosixPath.is_empty head = false) as Hh.
    { destruct head; [| reflexivity]. cbn in E2. injection E2 as <- _. discriminate Hh2. }
    rewrite (path_exists_split_head _ _ _ _ _ E2 Hh2 (Hhead Hh)).
    rewrite andb_false_r. apply mkdir_existing, Hex.
  - destruct (PosixPath.is_empty head) eqn:Hh; [apply mkdir_existing, Hex |].
    rewrite (Hhead eq_refl), andb_false_r. apply mkdir_existing, Hex.
Qed.

(** [os.makedirs] on a path that is there, however it is spelled, raises
    [FileExistsError] and changes nothing. *)
Lemma makedirs_existing (name : string) (w : world) :
  path_exists (fs w) (cwd w) name = true ->
  makedirs name w = (Raise (FileExistsError name), record (Makedirs name) w).
Proof.
  intros Hex. unfold makedirs.
  destruct (String.length name) as [| fuel]; cbn [makedirs_rec].
  - apply mkdir_existing. exact Hex.
  - apply makedirs_step_existing. exact Hex.
Qed.

(** *** Joining *)

Lemma ends_with_sep_append (u : string) (c : ascii) (z : string) :
  PosixPath.ends_with_sep (u +:+ String c z) = PosixPath.ends_with_sep (String c z).
Proof.
  induction u as [| d u IH]; [reflexivity |].
  rewrite <- IH. simpl.
  destruct (u +:+ String c z) eqn:E; [destruct u; discriminate E | reflexivity].
Qed.

(** Joining a relative, non-empty component puts it behind the path,
    with a separator unless the path is empty or ends in one. *)
Lemma join_step_relative (path : string) (c : ascii) (z : string) :
  PosixPath.starts_with_sep (String c z) = false ->
  exists dir,
    PosixPath.join_step path (String c z) = dir +:+ String c z
    /\ (dir = "" \/ PosixPath.ends_with_sep dir = true)
    /\ (dir = path \/ dir = path +:+ "/").
Proof.
  intros Hrel. unfold PosixPath.join_step. rewrite Hrel.
  destruct path as [| d path'].
  - exists "". repeat split; auto.
  - cbn [PosixPath.is_empty orb].
    destruct (PosixPath.ends_with_sep (String d path')) eqn:Hs.
    + exists (String d path'). repeat split; auto.
    + exists (String d path' +:+ "/"). split; [| split; [right | right; reflexivity]].
      * rewrite string_app_assoc. reflexivity.
      * apply (ends_with_sep_append (String d path') "/" "").
Qed.

Lemma join_step_relative_any (path b : string) :
  PosixPath.starts_with_sep b = false ->
  PosixPath.join_step path b = path +:+ b
  \/ PosixPath.join_step path b = (path +:+ "/") +:+ b.
Proof.
  intros Hrel. unfold PosixPath.join_step. rewrite Hrel.
  destruct (_ || _); [left; reflexivity | right].
  rewrite string_app_assoc. reflexivity.
Qed.

Lemma join_step_name (path b : string) :
  PosixPath.is_empty path = false ->
  PosixPath.ends_with_sep path = false ->
  PosixPath.starts_with_sep b = false ->
  PosixPath.join_step path b = path +:+ "/" +:+ b.
Proof.
  intros Hne Hend Hrel. unfold PosixPath.join_step.
  rewrite Hrel, Hne, Hend. reflexivity.
Qed.

Lemma ends_with_sep_after_sep (path : string) (c : ascii) (z : string) :
  PosixPath.ends_with_sep (path +:+ "/" +:+ String c z)
    = PosixPath.ends_with_sep (String c z).
Proof.
  change (path +:+ "/" +:+ String c z) with (path +:+ String "/" (String c z)).
  rewrite ends_with_sep_append.
  cbn. destruct z; reflexivity.
Qed.

Lemma is_empty_after_sep (path b : string) :
  PosixPath.is_empty (path +:+ "/" +:+ b) = false.
Proof. apply (is_empty_append path "/" b). Qed.

Lemma starts_with_sep_append (a b : string) :
  PosixPath.starts_with_sep a = true ->
  PosixPath.starts_with_sep (a +:+ b) = true.
Proof. destruct a as [| c a]; [discriminate |]. intros H. exact H. Qed.

Lemma string_length_append (a b : string) :
  String.length (a +:+ b) = String.length a + String.length b.
Proof.
  induction a as [| x a IH]; [reflexivity |].
  change (S (String.length (a +:+ b)) = S (String.length a + String.length b)).
  rewrite IH. reflexivity.
Qed.

(** Two names joined to a directory: the directory, a separator unless
    it is empty or ends in one, and the names with a separator between. *)
Lemma join_two_names (dir : string) (c1 : ascii) (z1 : string) (c2 : ascii) (z2 : string) :
  PosixPath.starts_with_sep (String c1 z1) = false ->
  PosixPath.ends_with_sep (String c1 z1) = false ->
  PosixPath.starts_with_sep (String c2 z2) = false ->
  PosixPath.join dir [String c1 z1; String c2 z2] =
    (if PosixPath.is_empty dir || PosixPath.ends_with_sep dir
     then dir else dir +:+ "/")
    +:+ String c1 z1 +:+ "/" +:+ String c2 z2.
Proof.
  intros Hrel1 Hend1 Hrel2. unfold PosixPath.join. cbn [fold_left].
  assert (PosixPath.join_step dir (String c1 z1) =
          (if PosixPath.is_empty dir || PosixPath.ends_with_sep dir
           then dir else dir +:+ "/") +:+ String c1 z1) as ->.
  { unfold PosixPath.join_step. rewrite Hrel1.
    destruct (_ || _); [reflexivity |]. rewrite string_app_assoc. reflexivity. }
  rewrite join_step_name;
    [rewrite string_app_assoc; reflexivity
    | apply is_empty_append
    | rewrite ends_with_sep_append; exact Hend1
    | exact Hrel2].
Qed.

(** ** The install action *)

Lemma main_install_start (sys : programs) (args : Namespace) (w : world)
    (returncode : Z) (stdout : string) (fs_after : gmap string node) :
  action args = "install" ->
  sys (first_command args) (fs w) = Exited returncode stdout fs_after ->
  first_command args = get_args_for_swift args "build" "swift-backtrace" []
  /\ main sys args w =
       after_build sys args
         {| fs := fs_after; trace := trace w ++ [Call (first_command args)];
            cwd := cwd w |}.
Proof.
  intros Ha Hsys.
  assert (first_command args =
          get_args_for_swift args "build" "swift-backtrace" []) as Hcmd.
  { unfold first_command, first_verb. rewrite Ha. reflexivity. }
  split; [exact Hcmd |].
  rewrite (main_install _ _ Ha). unfold bind at 1.
  rewrite Hcmd in Hsys |- *.
  rewrite (invoke_swift_exited _ _ _ _ _ _ _ _ _ Hsys). reflexivity.
Qed.

Lemma install_conflict (sys : programs) (args : Namespace) (w : world)
    (install_dir : string) (returncode : Z) (stdout : string)
    (fs_after : gmap string node) :
  action args = "install" ->
  install_path args = Some install_dir ->
  sys (first_command args) (fs w) = Exited returncode stdout fs_after ->
  path_exists fs_after (cwd w) install_dir = true ->
  main sys args w =
    (Raise (FileExistsError install_dir),
     {| fs := fs_after;
        trace := trace w ++ [Call (first_command args); Makedirs install_dir];
        cwd := cwd w |}).
Proof.
  intros Ha Hip Hsys Hex.
  destruct (main_install_start _ _ _ _ _ _ Ha Hsys) as [_ ->].
  unfold after_build, bind, fspath. rewrite Hip. cbn [ret].
  rewrite makedirs_existing by exact Hex.
  unfold record. cbn [fs trace cwd]. rewrite <- app_assoc. reflexivity.
Qed.

(** C7: when install is run and the install directory exists by the time
    it is to be created (the build child has returned), however the
    install path spells it (trailing separators, [.], [..], relative to
    the working directory), directory creation fails with
    [FileExistsError], the tool ends with a non-zero status, and nothing
    is copied: the file system stays as the build left it and no copy is
    attempted. *)
Theorem install_into_existing_directory_fails
    (sys : programs) (args : Namespace) (w : world)
    (install_dir : string) (returncode : Z) (stdout : string)
    (fs_after : gmap string node) :
  action args = "install" ->
  install_path args = Some install_dir ->
  sys (first_command args) (fs w) = Exited returncode stdout fs_after ->
  path_exists fs_after (cwd w) install_dir = true ->
  fst (main sys args w) = Raise (FileExistsError install_dir)
  /\ fst (run sys args w) = 1%Z
  /\ fs (snd (main sys args w)) = fs_after
  /\ exists new,
       trace (snd (main sys args w)) = trace w ++ new
       /\ forall src dst, ~ In (Copyfile src dst) new.
Proof.
  intros Ha Hip Hsys Hex.
  pose proof (install_conflict _ _ _ _ _ _ _ Ha Hip Hsys Hex) as Hmain.
  unfold run. rewrite Hmain. cbn [fst snd fs trace exit_status].
  repeat split.
  exists [Call (first_command args); Makedirs install_dir].
  split; [reflexivity |].
  intros src dst [H | [H | []]]; discriminate H.
Qed.

Lemma install_into_existing_directory_fails_witness :
  path_exists (built installed_tree) "/" "/usr/libexec/swift/" = true
  /\ fst (main working_toolchain install_scenario_slash installed_world)
       = Raise (FileExistsError "/usr/libexec/swift/")
  /\ fst (run working_toolchain install_scenario_slash installed_world) = 1%Z
  /\ fs (snd (main working_toolchain install_scenario_slash installed_world))
       = built installed_tree.
Proof.
  split; [reflexivity |].
  pose proof (install_into_existing_directory_fails
                working_toolchain install_scenario_slash installed_world
                "/usr/libexec/swift/" 0 "" (built installed_tree)
                eq_refl eq_refl eq_refl eq_refl) as (Hraise & Hexit & Hfs & _).
  split; [exact Hraise |]. split; [exact Hexit | exact Hfs].
Defined.

(** C9: install is not atomic on error.  The build child runs before the
    install directory is created, so when that directory exists, however
    the install path spells it, the failure comes only after the build has
    run: the calls made are the build and the refused directory creation,
    in this order, with no path query and no copy after them, and what the
    build did to the file system stays. *)
Theorem install_fails_after_build
    (sys : programs) (args : Namespace) (w : world)
    (install_dir : string) (returncode : Z) (stdout : string)
    (fs_after : gmap string node) :
  action args = "install" ->
  install_path args = Some install_dir ->
  sys (first_command args) (fs w) = Exited returncode stdout fs_after ->
  path_exists fs_after (cwd w) install_dir = true ->
  trace (snd (main sys args w)) =
    trace w ++ [Call (get_args_for_swift args "build" "swift-backtrace" []);
                Makedirs install_dir]
  /\ fst (main sys args w) = Raise (FileExistsError install_dir)
  /\ fs (snd (main sys args w)) = fs_after.
Proof.
  intros Ha Hip Hsys Hex.
  rewrite (install_conflict _ _ _ _ _ _ _ Ha Hip Hsys Hex).
  cbn [fst snd fs trace]. unfold first_command, first_verb. rewrite Ha.
  repeat split.
Qed.

Lemma install_fails_after_build_witness :
  path_exists (built installed_tree) "/" "/usr/libexec/swift/" = true
  /\ trace (snd (main working_toolchain install_scenario_slash installed_world)) =
       [Call ["/opt/toolchain/bin/swift"; "build"; "--package-path"; "/src/pkg";
              "--scratch-path"; "/tmp/out"; "--configuration"; "release";
              "--product"; "swift-backtrace"];
        Makedirs "/usr/libexec/swift/"]
  /\ fs (snd (main working_toolchain install_scenario_slash installed_world)) =
       built installed_tree.
Proof.
  split; [reflexivity |].
  pose proof (install_fails_after_build
                working_toolchain install_scenario_slash installed_world
                "/usr/libexec/swift/" 0 "" (built installed_tree)
                eq_refl eq_refl eq_refl eq_refl) as (Htrace & _ & Hfs).
  split; [exact Htrace | exact Hfs].
Defined.

(** ** Actions outside the three *)

(** C8: an action string other than build, test and install is accepted
    by the parser (the positional argument has no choices) and the tool
    does nothing with it: no child process, no file system call, the world
    unchanged, exit status 0. *)
Theorem unknown_action_is_silent_noop
    (sys : programs) (args : Namespace) (w : world) :
  build_action (action args) = false ->
  accepted action_choices (action args) = true
  /\ run sys args w = (0%Z, w).
Proof.
  unfold build_action. cbn [existsb]. rewrite orb_false_r.
  intros [Hb [Ht Hi]%orb_false_elim]%orb_false_elim.
  split; [reflexivity |].
  unfold run, main. rewrite Hb, Ht, Hi. reflexivity.
Qed.

Lemma unknown_action_is_silent_noop_witness :
  build_action (action deploy_scenario) = false
  /\ parsed deploy_scenario = true
  /\ run working_toolchain deploy_scenario installed_world = (0%Z, installed_world).
Proof.
  split; [reflexivity |]. split; [reflexivity |].
  apply (unknown_action_is_silent_noop working_toolchain deploy_scenario installed_world).
  reflexivity.
Defined.

(** ** The product descriptor *)

Import Product.

(** C6: [get_dependencies] is a fixed ordered sequence of exactly ten
    upstream products, all different; it takes neither a host target nor
    an instance, so it is the same for every one of them. *)
Theorem dependencies_fixed :
  get_dependencies =
    [CMark; LLVM; LibCXX; LibICU; Swift; LibDispatch; Foundation; XCTest;
     LLBuild; SwiftPM]
  /\ length get_dependencies = 10
  /\ List.NoDup get_dependencies.
Proof.
  split; [reflexivity |]. split; [reflexivity |].
  unfold get_dependencies.
  repeat (apply List.NoDup_cons;
          [cbn; intros H; repeat (destruct H as [H | H]; [discriminate H |]);
           exact H |]).
  apply List.NoDup_nil.
Qed.

(** C10: for a given host target, build, test and install hand the same
    helper command to the shell apart from the action verb in second
    place; the command carries --install-path for build and test as well
    as for install, and its value is the install toolchain path, a
    separator (unless that path is empty or ends in one) and
    libexec/swift. *)
Theorem helper_command_differs_in_verb_only
    (cwd : string) (self : SwiftBacktrace) (host_target : string) (sh : shell) :
  exists script options before after,
    build cwd self host_target sh = sh ++ [script :: "build" :: options]
    /\ test cwd self host_target sh = sh ++ [script :: "test" :: options]
    /\ install cwd self host_target sh = sh ++ [script :: "install" :: options]
    /\ options =
         before
         ++ ["--install-path";
             (if PosixPath.is_empty (install_toolchain_path self host_target)
                 || PosixPath.ends_with_sep (install_toolchain_path self host_target)
              then install_toolchain_path self host_target
              else install_toolchain_path self host_target +:+ "/")
             +:+ "libexec/swift"]
         ++ after
    /\ length before = 8.
Proof.
  unfold build, test, install, run_build_script_helper, shell_call, helper_cmd.
  rewrite (join_two_names (install_toolchain_path self host_target)
             "l" "ibexec" "s" "wift" eq_refl eq_refl eq_refl).
  destruct (verbose_build (Product.args self)).
  - do 2 eexists. eexists [_; _; _; _; _; _; _; _], ["--verbose"].
    repeat split.
  - do 2 eexists. eexists [_; _; _; _; _; _; _; _], [].
    repeat split.
Qed.

(** * Further properties of the helper script *)

(** ** The compiler that is run *)

(** X1: the program of every vector is the file swift in the directory bin
    under the toolchain path: the toolchain path, a separator (unless that
    path is empty or ends in one) and bin/swift; for an empty toolchain
    path it is the relative bin/swift.  So it always holds a separator
    and is never a bare name to be looked up on the search path. *)
Theorem swift_path_in_bin (args : Namespace) (a p : string) (extra : list string) :
  let dir :=
    if PosixPath.is_empty (toolchain args) || PosixPath.ends_with_sep (toolchain args)
    then toolchain args else toolchain args +:+ "/" in
  hd_error (get_args_for_swift args a p extra) = Some (dir +:+ "bin/swift")
  /\ (dir = "" \/ PosixPath.ends_with_sep dir = true)
  /\ (dir = "" <-> toolchain args = "").
Proof.
  intros dir. rewrite get_args_for_swift_eq. cbn [app hd_error].
  unfold swift_path.
  rewrite (join_two_names (toolchain args) "b" "in" "s" "wift" eq_refl eq_refl eq_refl).
  fold dir. split; [reflexivity |].
  unfold dir. destruct (toolchain args) as [| c t] eqn:Et.
  - cbn. split; [left; reflexivity | split; reflexivity].
  - cbn [PosixPath.is_empty orb].
    destruct (PosixPath.ends_with_sep (String c t)) eqn:Hs.
    + split; [right; exact Hs | split; discriminate].
    + split; [right; apply (ends_with_sep_append (String c t) "/" "") |].
      split; discriminate.
Qed.

(** ** Arguments that are not read *)

(** X2: [--prefix] is never read: with any other value for it, [main]
    does the same to the same world. *)
Theorem prefix_is_ignored (sys : programs) (args : Namespace)
    (p : option string) (w : world) :
  main sys (with_prefix p args) w = main sys args w.
Proof. reflexivity. Qed.

(** X3: [--install-path] is read by the install action only: for every
    other action string [main] does the same whatever the install path is,
    or without one. *)
Theorem install_path_only_read_by_install (sys : programs) (args : Namespace)
    (d : option string) (w : world) :
  String.eqb (action args) "install" = false ->
  main sys (with_install_path d args) w = main sys args w.
Proof.
  intros Hi. unfold main. cbn [action with_install_path].
  rewrite Hi. reflexivity.
Qed.

Lemma install_path_only_read_by_install_witness :
  main working_toolchain
    (with_install_path (Some "/usr/libexec/swift") verbose_scenario) installed_world
  = main working_toolchain verbose_scenario installed_world.
Proof.
  apply (install_path_only_read_by_install
           working_toolchain verbose_scenario (Some "/usr/libexec/swift")
           installed_world).
  reflexivity.
Defined.

(** ** Failures before the install directory is touched *)

(** X4: when the compiler cannot be started, for each of the three
    actions, the exception of the failed start leaves [main], the tool
    ends with status 1, and nothing but the attempt has happened: the file
    system is untouched and, for install, no directory is created. *)
Theorem unstartable_toolchain_stops_main
    (sys : programs) (args : Namespace) (w : world) (e : exn) :
  build_action (action args) = true ->
  sys (first_command args) (fs w) = NotStarted e ->
  main sys args w =
    (Raise e, {| fs := fs w; trace := trace w ++ [Call (first_command args)];
                 cwd := cwd w |})
  /\ fst (run sys args w) = 1%Z.
Proof.
  intros Ha Hsys.
  assert (main sys args w =
          (Raise e, {| fs := fs w; trace := trace w ++ [Call (first_command args)];
                       cwd := cwd w |}))
    as Hmain.
  { unfold first_command, first_verb in *. unfold main.
    destruct (build_action_cases _ Ha) as [Hb | [Ht | Hi]];
      rewrite ?Hb, ?Ht, ?Hi in *; cbn [String.eqb Ascii.eqb Bool.eqb] in *;
      unfold invoke_swift, bind, subprocess_call; cbn [record fs trace];
      rewrite Hsys; reflexivity. }
  split; [exact Hmain |]. unfold run. rewrite Hmain. reflexivity.
Qed.

Lemma unstartable_toolchain_stops_main_witness :
  build_action (action install_scenario) = true
  /\ main missing_toolchain install_scenario empty_world =
       (Raise (FileNotFoundError "/opt/toolchain/bin/swift"),
        {| fs := ∅; trace := [Call (first_command install_scenario)]; cwd := "/" |}).
Proof.
  split; [reflexivity |].
  apply (unstartable_toolchain_stops_main
           missing_toolchain install_scenario empty_world
           (FileNotFoundError "/opt/toolchain/bin/swift"));
    reflexivity.
Defined.

(** X5: install without [--install-path] still runs the build first and
    fails only then, with [TypeError]: the build child has run and its
    effects stay, no directory is created, no query is made, nothing is
    copied. *)
Theorem install_without_path_fails_after_build
    (sys : programs) (args : Namespace) (w : world)
    (returncode : Z) (stdout : string) (fs_after : gmap string node) :
  action args = "install" ->
  install_path args = None ->
  sys (first_command args) (fs w) = Exited returncode stdout fs_after ->
  main sys args w =
    (Raise TypeError,
     {| fs := fs_after; trace := trace w ++ [Call (first_command args)];
        cwd := cwd w |}).
Proof.
  intros Ha Hip Hsys.
  rewrite (main_install _ _ Ha). unfold bind at 1.
  assert (first_command args =
          get_args_for_swift args "build" "swift-backtrace" []) as Hcmd.
  { unfold first_command, first_verb. rewrite Ha. reflexivity. }
  rewrite Hcmd in Hsys |- *.
  rewrite (invoke_swift_exited _ _ _ _ _ _ _ _ _ Hsys).
  unfold after_build, bind, fspath. rewrite Hip. reflexivity.
Qed.

Lemma install_without_path_fails_after_build_witness :
  main working_toolchain (with_install_path None install_scenario) empty_world =
    (Raise TypeError,
     {| fs := built ∅;
        trace := [Call (first_command install_scenario)];
        cwd := "/" |}).
Proof.
  apply (install_without_path_fails_after_build
           working_toolchain (with_install_path None install_scenario)
           empty_world 0 "" (built ∅));
    reflexivity.
Defined.

(** ** What the script may do to its surroundings *)

Lemma subprocess_call_trace (sys : programs) (argv : list string) (w : world) :
  trace (snd (subprocess_call sys argv w)) = trace w ++ [Call argv].
Proof. unfold subprocess_call. cbn [record fs trace]. destruct (sys _ _); reflexivity. Qed.

Lemma subprocess_check_output_trace (sys : programs) (argv : list string) (w : world) :
  trace (snd (subprocess_check_output sys argv w)) = trace w ++ [CheckOutput argv].
Proof.
  unfold subprocess_check_output. cbn [record fs trace].
  destruct (sys _ _) as [| rc out f]; [reflexivity |].
  destruct (Z.eqb rc 0); reflexivity.
Qed.

Lemma mkdir_frame (p : string) (w : world) : same_frame w (snd (mkdir p w)).
Proof. unfold mkdir, same_frame. case_matches; split; reflexivity. Qed.

Lemma makedirs_rec_frame (fuel : nat) (name : string) (w : world) :
  same_frame w (snd (makedirs_rec fuel name w)).
Proof.
  revert name w. induction fuel as [| fuel IH]; intros name w; cbn [makedirs_rec].
  - apply mkdir_frame.
  - unfold makedirs_step.
    destruct (PosixPath.split name) as [head tail].
    destruct (if PosixPath.is_empty tail then PosixPath.split head else (head, tail))
      as [head' tail'].
    destruct (_ && _); [| apply mkdir_frame].
    pose proof (IH head' w) as [Ht Hc].
    destruct (makedirs_rec fuel head' w) as [[[] | e] w1]; cbn [snd] in Ht, Hc.
    + destruct (String.eqb tail' "."); [split; assumption |].
      destruct (mkdir_frame name w1) as [Ht' Hc'].
      split; [rewrite Ht'; exact Ht | rewrite Hc'; exact Hc].
    + destruct e; try (split; assumption).
      destruct (String.eqb tail' "."); [split; assumption |].
      destruct (mkdir_frame name w1) as [Ht' Hc'].
      split; [rewrite Ht'; exact Ht | rewrite Hc'; exact Hc].
Qed.

Lemma makedirs_trace (name : string) (w : world) :
  trace (snd (makedirs name w)) = trace w ++ [Makedirs name].
Proof.
  unfold makedirs.
  destruct (makedirs_rec_frame (String.length name) name (record (Makedirs name) w))
    as [Ht _].
  rewrite Ht. reflexivity.
Qed.

Lemma write_file_frame (dst content : string) (w : world) :
  same_frame w (snd (write_file dst content w)).
Proof. unfold write_file, same_frame. case_matches; split; reflexivity. Qed.

Lemma copyfile_trace (src dst : string) (w : world) :
  trace (snd (copyfile src dst w)) = trace w ++ [Copyfile src dst].
Proof.
  unfold copyfile.
  destruct (_ || _); [reflexivity |].
  destruct (same_file _ _ _ _); [reflexivity |].
  destruct (lookup_path _ _ src) as [s [| content] | |]; try reflexivity.
  destruct (write_file_frame dst content (record (Copyfile src dst) w)) as [Ht _].
  rewrite Ht. reflexivity.
Qed.

Lemma swift_call_get_args (args : Namespace) (verbs : list string)
    (a p : string) (extra : list string) :
  existsb (String.eqb a) verbs = true ->
  swift_call args verbs (get_args_for_swift args a p extra) = true.
Proof.
  intros Hv. rewrite get_args_for_swift_eq. cbn [app swift_call].
  rewrite String.eqb_refl, Hv. reflexivity.
Qed.

Lemma query_has_show_bin_path (args : Namespace) (p : string) :
  existsb (String.eqb "--show-bin-path")
    (get_args_for_swift args "build" p ["--show-bin-path"]) = true.
Proof.
  apply existsb_exists. exists "--show-bin-path". split; [| reflexivity].
  rewrite get_args_for_swift_eq.
  apply in_or_app. right. left. reflexivity.
Qed.

Lemma invoke_swift_trace (sys : programs) (args : Namespace) (a p : string)
    (extra : list string) (w : world) :
  trace (snd (invoke_swift sys args a p extra w)) =
    trace w ++ [Call (get_args_for_swift args a p extra)].
Proof.
  unfold invoke_swift, bind.
  pose proof (subprocess_call_trace sys (get_args_for_swift args a p extra) w) as T.
  destruct (subprocess_call _ _ w) as [[rc | e] w1]; exact T.
Qed.

Lemma get_binary_path_trace (sys : programs) (args : Namespace) (p : string)
    (w : world) :
  trace (snd (get_binary_path sys args p w)) =
    trace w ++ [CheckOutput (get_args_for_swift args "build" p ["--show-bin-path"])].
Proof.
  unfold get_binary_path, bind, decode.
  pose proof (subprocess_check_output_trace sys
                (get_args_for_swift args "build" p ["--show-bin-path"]) w) as T.
  destruct (subprocess_check_output _ _ w) as [[out | e] w1]; [| exact T].
  destruct (Bytes.utf8_valid _); exact T.
Qed.

(** X6: whatever the toolchain does and however the run ends, the calls
    [main] makes are confined: it starts no program but the compiler of
    the toolchain with the verb build or test, it calls [os.makedirs] on
    no path but the install path and [shutil.copyfile] with no destination
    but swift-backtrace joined to the install path, both for the install
    action only; at most four calls are made. *)
Theorem main_calls_are_confined (sys : programs) (args : Namespace) (w : world) :
  exists new,
    trace (snd (main sys args w)) = trace w ++ new
    /\ forallb (allowed_event args) new = true
    /\ length new <= 4.
Proof.
  unfold main.
  destruct (String.eqb (action args) "build") eqn:Hb;
    [| destruct (String.eqb (action args) "test") eqn:Ht;
       [| destruct (String.eqb (action args) "install") eqn:Hi]].
  - eexists. split; [apply invoke_swift_trace |].
    cbn. rewrite swift_call_get_args by reflexivity. split; [reflexivity | lia].
  - eexists. split; [apply invoke_swift_trace |].
    cbn. rewrite swift_call_get_args by reflexivity. split; [reflexivity | lia].
  - set (build_cmd := get_args_for_swift args "build" "swift-backtrace" []).
    set (query := get_args_for_swift args "build" "swift-backtrace" ["--show-bin-path"]).
    assert (allowed_event args (Call build_cmd) = true) as Hcall
      by (cbn; apply swift_call_get_args; reflexivity).
    assert (allowed_event args (CheckOutput query) = true) as Hquery.
    { cbn [allowed_event]. unfold query.
      rewrite swift_call_get_args, query_has_show_bin_path, Hi by reflexivity.
      reflexivity. }
    unfold bind at 1.
    pose proof (invoke_swift_trace sys args "build" "swift-backtrace" [] w) as T1.
    fold build_cmd in T1.
    destruct (invoke_swift _ _ _ _ _ w) as [[[] | e1] w1]; cbn [snd] in T1;
      [| exists [Call build_cmd]; cbn [snd forallb length];
         rewrite Hcall; repeat split; [exact T1 | lia]].
    unfold bind at 1, fspath.
    destruct (install_path args) as [d |] eqn:Hd;
      [| exists [Call build_cmd]; cbn [raise snd forallb length];
         rewrite Hcall; repeat split; [exact T1 | lia]].
    assert (allowed_event args (Makedirs d) = true) as Hmk
      by (cbn [allowed_event]; rewrite Hi, Hd, String.eqb_refl; reflexivity).
    cbn [ret]. unfold bind at 1.
    pose proof (makedirs_trace d w1) as T2. rewrite T1 in T2.
    destruct (makedirs d w1) as [[[] | e2] w2]; cbn [snd] in T2;
      [| exists [Call build_cmd; Makedirs d]; cbn [snd forallb length];
         rewrite Hcall, Hmk, T2, <- app_assoc; repeat split; lia].
    unfold bind at 1.
    pose proof (get_binary_path_trace sys args "swift-backtrace" w2) as T3.
    fold query in T3. rewrite T2 in T3.
    destruct (get_binary_path _ _ _ w2) as [[src | e3] w3]; cbn [snd] in T3;
      [| exists [Call build_cmd; Makedirs d; CheckOutput query];
         cbn [snd forallb length];
         rewrite Hcall, Hmk, Hquery, T3, <- !app_assoc; repeat split; lia].
    exists [Call build_cmd; Makedirs d; CheckOutput query;
            Copyfile src (PosixPath.join d ["swift-backtrace"])].
    assert (allowed_event args
              (Copyfile src (PosixPath.join d ["swift-backtrace"])) = true) as Hcopy
      by (cbn [allowed_event]; rewrite Hi, Hd, String.eqb_refl; reflexivity).
    rewrite copyfile_trace, T3, <- !app_assoc.
    cbn [forallb length].
    rewrite Hcall, Hmk, Hquery, Hcopy. repeat split; lia.
  - exists []. cbn. rewrite app_nil_r. repeat split; lia.
Qed.

(** ** Creating the install directory *)

Lemma extends_insert (f : gmap string node) (c : string) (s : list string) (v : node) :
  node_at f (c :: s) = None ->
  extends f (<[key_of (c :: s) := v]> f).
Proof.
  intros Hnew [| c' s'] n; [intros H; exact H |].
  cbn [node_at] in Hnew |- *. intros Hn.
  rewrite lookup_insert_ne; [exact Hn |].
  intros Heq. rewrite Heq, Hn in Hnew. discriminate Hnew.
Qed.

Lemma step_extends (f f' : gmap string node) (s : list string) (c : string)
    (s' : list string) :
  extends f f' -> step f s c = At s' -> step f' s c = At s'.
Proof.
  intros Hext. unfold step.
  destruct (node_at f s) as [[| content] |] eqn:Es; try discriminate.
  rewrite (Hext _ _ Es).
  destruct (_ || _); [intros H; exact H |].
  destruct (node_at f (if String.eqb c ".." then tl s else c :: s)) as [n |] eqn:En;
    [| discriminate].
  rewrite (Hext _ _ En). intros H. exact H.
Qed.

Lemma walk_extends (f f' : gmap string node) (s : list string) (l : list string)
    (s' : list string) :
  extends f f' -> walk f s l = At s' -> walk f' s l = At s'.
Proof.
  intros Hext. revert s. induction l as [| c l IH]; intros s; [intros H; exact H |].
  cbn [walk]. destruct (step f s c) as [s1 | |] eqn:Es; try discriminate.
  rewrite (step_extends _ _ _ _ _ Hext Es). apply IH.
Qed.

(** The components of a path as its parent, its name and what trailing
    separators leave. *)
Lemma parent_and_name_comps (p : string) (parent : list string) (name : string) :
  parent_and_name p = Some (parent, name) ->
  PosixPath.is_empty name = false
  /\ exists k, PosixPath.split_sep p = parent ++ [name] ++ repeat "" k.
Proof.
  unfold parent_and_name. intros Hsplit. apply split_last_spec in Hsplit.
  split; [exact (drop_trailing_empty_last _ _ _ Hsplit) |].
  destruct (drop_trailing_empty_spec (PosixPath.split_sep p)) as [k Hk].
  exists k. rewrite Hk at 1. rewrite Hsplit, <- app_assoc. reflexivity.
Qed.

(** A new entry under a directory is found where its path leads. *)
Lemma walk_to_new_entry (f : gmap string node) (s0 : list string)
    (parent : list string) (name : string) (k : nat) (place : list string)
    (v : node) :
  walk f s0 parent = At place ->
  node_at f place = Some Dir ->
  PosixPath.is_empty name = false ->
  is_dot_or_dotdot name = false ->
  node_at f (name :: place) = None ->
  (v = Dir \/ k = 0) ->
  walk (<[key_of (name :: place) := v]> f) s0 (parent ++ [name] ++ repeat "" k)
    = At (name :: place)
  /\ node_at (<[key_of (name :: place) := v]> f) (name :: place) = Some v.
Proof.
  intros Hparent Hdir Hname Hdot Hnew Hv.
  pose proof (extends_insert f name place v Hnew) as Hext.
  set (f' := <[key_of (name :: place) := v]> f) in *.
  assert (node_at f' (name :: place) = Some v) as Hin
    by (cbn [node_at]; apply lookup_insert_eq).
  split; [| exact Hin].
  rewrite walk_app, (walk_extends _ _ _ _ _ Hext Hparent).
  cbn [app walk]. unfold step at 1. rewrite (Hext _ _ Hdir).
  unfold is_dot_or_dotdot in Hdot. apply orb_false_elim in Hdot as [Hd Hdd].
  assert (String.eqb name "" = false) as ->
    by (destruct name; [discriminate Hname | reflexivity]).
  rewrite Hd, Hdd. cbn [orb]. rewrite Hin.
  destruct Hv as [-> | ->]; [apply walk_empties; exact Hin | reflexivity].
Qed.

(** [os.mkdir] that succeeds leaves a directory where the path leads. *)
Lemma mkdir_made (p : string) (w w' : world) :
  mkdir p w = (Ok tt, w') ->
  has_nul p = false
  /\ exists place, lookup_path (fs w') (cwd w) p = Found place Dir.
Proof.
  unfold mkdir.
  destruct (has_nul p) eqn:Hnul; [discriminate |].
  destruct (PosixPath.is_empty p) eqn:Hne; [discriminate |].
  destruct (parent_and_name p) as [[parent name] |] eqn:Epn; [| discriminate].
  destruct (walk (fs w) (start (cwd w) p) parent) as [place | |] eqn:Ew; try discriminate.
  destruct (node_at (fs w) place) as [[| content] |] eqn:Ed; try discriminate.
  destruct (is_dot_or_dotdot name) eqn:Edot; [discriminate |].
  destruct (node_at (fs w) (name :: place)) eqn:Enew; [discriminate |].
  intros [= <-]. split; [reflexivity |].
  destruct (parent_and_name_comps _ _ _ Epn) as [Hname [k Hk]].
  destruct (walk_to_new_entry (fs w) (start (cwd w) p) parent name k place Dir
              Ew Ed Hname Edot Enew (or_introl eq_refl)) as [Hwalk Hnode].
  exists (name :: place).
  unfold lookup_path, with_fs. cbn [fs]. rewrite Hne, Hk, Hwalk, Hnode. reflexivity.
Qed.

(** [os.makedirs] that succeeds on a path whose last name is not [.]
    leaves a directory where the path leads. *)
Lemma makedirs_made (name : string) (w w' : world) :
  makedirs name w = (Ok tt, w') ->
  String.eqb (final_name name) "." = false ->
  has_nul name = false
  /\ trace w' = trace w ++ [Makedirs name]
  /\ cwd w' = cwd w
  /\ exists place, lookup_path (fs w') (cwd w) name = Found place Dir.
Proof.
  intros Hmk Hfinal.
  pose proof (makedirs_trace name w) as Htrace. rewrite Hmk in Htrace.
  unfold makedirs in Hmk.
  destruct (makedirs_rec_frame (String.length name) name (record (Makedirs name) w))
    as [_ Hcwd].
  rewrite Hmk in Hcwd. cbn [snd record cwd] in Hcwd, Htrace.
  enough (has_nul name = false
          /\ exists place, lookup_path (fs w') (cwd w) name = Found place Dir)
    as [Hnul Hplace] by auto.
  set (w0 := record (Makedirs name) w) in *.
  change (cwd w) with (cwd w0).
  destruct (String.length name) as [| fuel]; cbn [makedirs_rec] in Hmk;
    [exact (mkdir_made _ _ _ Hmk) |].
  unfold makedirs_step, final_name in *.
  destruct (PosixPath.split name) as [head tail].
  assert ((if PosixPath.is_empty tail then (PosixPath.split head).2 else tail)
          = (if PosixPath.is_empty tail then PosixPath.split head else (head, tail)).2)
    as Htail by (destruct (PosixPath.is_empty tail); reflexivity).
  rewrite Htail in Hfinal.
  destruct (if PosixPath.is_empty tail then PosixPath.split head else (head, tail))
    as [head' tail'].
  cbn [snd] in Hfinal.
  destruct (_ && _); [| exact (mkdir_made _ _ _ Hmk)].
  destruct (makedirs_rec_frame fuel head' w0) as [_ Hc1].
  destruct (makedirs_rec fuel head' w0) as [[[] | e] w1]; cbn [snd] in Hc1.
  - rewrite Hfinal in Hmk. rewrite <- Hc1. exact (mkdir_made _ _ _ Hmk).
  - destruct e; try discriminate Hmk.
    rewrite Hfinal in Hmk. rewrite <- Hc1. exact (mkdir_made _ _ _ Hmk).
Qed.

(** ** A successful install *)

Lemma ends_with_sep_cut (d : string) :
  PosixPath.ends_with_sep d = true -> exists y, d = y +:+ "/".
Proof.
  induction d as [| c d IH]; [discriminate |].
  cbn [PosixPath.ends_with_sep]. destruct d as [| c' d'].
  - intros Hc%ascii_eqb_sep. subst c. exists "". reflexivity.
  - intros H. destruct (IH H) as [y Hy]. exists (String c y). rewrite Hy. reflexivity.
Qed.

Lemma drop_trailing_empty_snoc (l : list string) (x : string) :
  PosixPath.is_empty x = false -> drop_trailing_empty (l ++ [x]) = l ++ [x].
Proof.
  intros Hx. induction l as [| c l IH].
  - cbn. rewrite Hx. reflexivity.
  - cbn [app drop_trailing_empty]. rewrite IH.
    destruct l; reflexivity.
Qed.

Lemma split_last_snoc (l : list string) (x : string) :
  split_last (l ++ [x]) = Some (l, x).
Proof.
  induction l as [| c l IH]; [reflexivity |].
  cbn [app split_last]. rewrite IH. reflexivity.
Qed.

Lemma parent_and_name_snoc (p : string) (l : list string) (x : string) :
  PosixPath.split_sep p = l ++ [x] ->
  PosixPath.is_empty x = false ->
  parent_and_name p = Some (l, x).
Proof.
  intros Hp Hx. unfold parent_and_name.
  rewrite Hp, drop_trailing_empty_snoc by exact Hx. apply split_last_snoc.
Qed.

(** The file copied to is swift-backtrace directly in the directory the
    install path leads to. *)
Lemma destination_in_install_dir (f : gmap string node) (cwd d : string)
    (place : list string) :
  lookup_path f cwd d = Found place Dir ->
  PosixPath.is_empty (PosixPath.join d ["swift-backtrace"]) = false
  /\ PosixPath.ends_with_sep (PosixPath.join d ["swift-backtrace"]) = false
  /\ has_nul (PosixPath.join d ["swift-backtrace"]) = has_nul d
  /\ start cwd (PosixPath.join d ["swift-backtrace"]) = start cwd d
  /\ exists parent,
       PosixPath.split_sep (PosixPath.join d ["swift-backtrace"])
         = parent ++ ["swift-backtrace"]
       /\ walk f (start cwd d) parent = At place.
Proof.
  unfold lookup_path.
  destruct (PosixPath.is_empty d) eqn:Hne; [discriminate |].
  destruct (walk f (start cwd d) (PosixPath.split_sep d)) as [s | |] eqn:Hw;
    try discriminate.
  destruct (node_at f s) as [n |] eqn:Hn; [| discriminate].
  intros Heq. injection Heq as Hs Hn'. subst s n.
  unfold PosixPath.join, PosixPath.join_step. cbn [fold_left].
  cbn [PosixPath.starts_with_sep]. rewrite Hne. cbn [orb].
  destruct (PosixPath.ends_with_sep d) eqn:Hend.
  - destruct (ends_with_sep_cut d Hend) as [y ->].
    repeat split.
    + apply is_empty_append.
    + rewrite ends_with_sep_append. reflexivity.
    + rewrite has_nul_append. cbn. rewrite orb_false_r. reflexivity.
    + unfold start. rewrite starts_with_sep_prefix by exact Hne. reflexivity.
    + exists (PosixPath.split_sep y). split.
      * rewrite string_app_assoc. apply (split_sep_append_sep y "swift-backtrace").
      * rewrite (split_sep_append_sep y ""), walk_app in Hw.
        destruct (walk f (start cwd (y +:+ "/")) (PosixPath.split_sep y))
          as [s1 | |] eqn:E1; try discriminate.
        cbn [PosixPath.split_sep walk] in Hw.
        unfold step in Hw. destruct (node_at f s1) as [[| c] |]; try discriminate.
        cbn in Hw. injection Hw as ->. reflexivity.
  - repeat split.
    + apply (is_empty_append d "/" "swift-backtrace").
    + apply (ends_with_sep_append d "/" "swift-backtrace").
    + change (d +:+ "/" +:+ "swift-backtrace") with (d +:+ "/swift-backtrace").
      rewrite has_nul_append. cbn. rewrite orb_false_r. reflexivity.
    + unfold start.
      change (d +:+ "/" +:+ "swift-backtrace") with (d +:+ "/swift-backtrace").
      rewrite starts_with_sep_prefix by exact Hne. reflexivity.
    + exists (PosixPath.split_sep d). split; [| exact Hw].
      apply (split_sep_append_sep d "swift-backtrace").
Qed.

(** X7: a successful install.  When the build child returns,
    [os.makedirs] succeeds on the install path (whose last name is not
    [.]), swift-backtrace is not in the new directory, the query exits
    with code 0 without touching the file system, and the path it prints,
    with swift-backtrace joined, leads to a regular file, then [main]
    ends normally after exactly four calls (build, directory creation,
    query, copy); the one change to the file system after [os.makedirs] is
    the new entry swift-backtrace in the directory the install path leads
    to, and reading the destination gives the content of the built
    binary. *)
Theorem install_copies_built_binary
    (sys : programs) (args : Namespace) (w : world) (d : string)
    (returncode : Z) (stdout : string) (fs_built : gmap string node)
    (w_made : world) (answer content : string) :
  action args = "install" ->
  install_path args = Some d ->
  sys (first_command args) (fs w) = Exited returncode stdout fs_built ->
  makedirs d {| fs := fs_built; trace := trace w ++ [Call (first_command args)];
                cwd := cwd w |} = (Ok tt, w_made) ->
  String.eqb (final_name d) "." = false ->
  path_exists (fs w_made) (cwd w) (PosixPath.join d ["swift-backtrace"]) = false ->
  sys (query_command args "swift-backtrace") (fs w_made)
    = Exited 0 answer (fs w_made) ->
  Bytes.utf8_valid (Bytes.strip answer) = true ->
  file_at (fs w_made) (cwd w)
    (PosixPath.join (Bytes.strip answer) ["swift-backtrace"]) = Some content ->
  exists place,
    lookup_path (fs w_made) (cwd w) d = Found place Dir
    /\ main sys args w =
         (Ok tt,
          {| fs := <[key_of ("swift-backtrace" :: place) := File content]> (fs w_made);
             trace :=
               trace w ++
               [Call (first_command args);
                Makedirs d;
                CheckOutput (query_command args "swift-backtrace");
                Copyfile (PosixPath.join (Bytes.strip answer) ["swift-backtrace"])
                         (PosixPath.join d ["swift-backtrace"])];
             cwd := cwd w |})
    /\ file_at (<[key_of ("swift-backtrace" :: place) := File content]> (fs w_made))
         (cwd w) (PosixPath.join d ["swift-backtrace"]) = Some content.
Proof.
  intros Ha Hip Hbuild Hmade Hfinal Hnew Hquery Hutf Hsrc.
  destruct (makedirs_made _ _ _ Hmade Hfinal) as (Hnul_d & Htrace & Hcwd & place & Hplace).
  cbn [trace cwd] in Htrace, Hcwd, Hplace.
  exists place. split; [exact Hplace |].
  set (src := PosixPath.join (Bytes.strip answer) ["swift-backtrace"]) in *.
  destruct (destination_in_install_dir _ _ _ _ Hplace)
    as (Hdst_ne & Hdst_end & Hdst_nul & Hstart & parent & Hcomps & Hwalk).
  set (dst := PosixPath.join d ["swift-backtrace"]) in *.
  rewrite Hnul_d in Hdst_nul.
  assert (node_at (fs w_made) place = Some Dir) as Hdir.
  { unfold lookup_path in Hplace.
    destruct (PosixPath.is_empty d); [discriminate |].
    destruct (walk _ _ _) as [s | |]; try discriminate.
    destruct (node_at (fs w_made) s) as [n |] eqn:En; [| discriminate].
    injection Hplace as -> ->. exact En. }
  assert (node_at (fs w_made) ("swift-backtrace" :: place) = None) as Hfresh.
  { destruct (node_at (fs w_made) ("swift-backtrace" :: place)) as [n |] eqn:En;
      [| reflexivity].
    enough (path_exists (fs w_made) (cwd w) dst = true) as Hthere
      by (rewrite Hthere in Hnew; discriminate Hnew).
    apply (path_exists_intro _ _ dst ("swift-backtrace" :: place) n Hdst_nul Hdst_ne);
      [| exact En].
    rewrite Hstart, Hcomps, walk_app, Hwalk. cbn [walk].
    unfold step. rewrite Hdir. cbn [String.eqb Ascii.eqb Bool.eqb orb].
    rewrite En. reflexivity. }
  destruct (walk_to_new_entry (fs w_made) (start (cwd w) d) parent "swift-backtrace" 0
              place (File content) Hwalk Hdir eq_refl eq_refl Hfresh
              (or_intror eq_refl)) as [Hwalk' Hnode'].
  cbn [repeat] in Hwalk'. rewrite app_nil_r in Hwalk'.
  assert (lookup_path (fs w_made) (cwd w) dst = Missing) as Hmissing.
  { unfold lookup_path. rewrite Hdst_ne, Hstart, Hcomps, walk_app, Hwalk.
    cbn [walk]. unfold step. rewrite Hdir. cbn [String.eqb Ascii.eqb Bool.eqb orb].
    rewrite Hfresh. reflexivity. }
  unfold file_at in Hsrc.
  destruct (has_nul src) eqn:Hsrc_nul; [discriminate |].
  destruct (lookup_path (fs w_made) (cwd w) src) as [s_src [| c_src] | |] eqn:Hsrc_at;
    try discriminate.
  injection Hsrc as ->.
  split.
  - destruct (main_install_start _ _ _ _ _ _ Ha Hbuild) as [_ ->].
    unfold after_build. unfold bind at 1. unfold fspath. rewrite Hip. cbn [ret].
    unfold bind at 1. rewrite Hmade.
    unfold bind at 1. unfold get_binary_path, bind, subprocess_check_output, decode.
    fold (query_command args "swift-backtrace").
    unfold record. cbn [fs trace cwd]. rewrite Hquery. cbn [Z.eqb].
    rewrite Hutf. cbn [ret]. fold src. fold dst.
    unfold copyfile, with_fs, record. cbn [fs trace cwd].
    rewrite Hcwd, Hsrc_nul, Hdst_nul. cbn [orb].
    unfold same_file. rewrite Hsrc_at, Hmissing.
    unfold write_file. cbn [fs trace cwd].
    rewrite Hdst_ne, (parent_and_name_snoc _ _ _ Hcomps eq_refl).
    rewrite Hstart, Hwalk, Hdir. cbn [is_dot_or_dotdot String.eqb Ascii.eqb Bool.eqb orb].
    rewrite Hfresh, Hdst_end.
    unfold with_fs. cbn [fs trace cwd].
    rewrite Htrace, <- !app_assoc. reflexivity.
  - unfold file_at, lookup_path. rewrite Hdst_nul, Hdst_ne, Hstart, Hcomps.
    rewrite Hwalk', Hnode'. reflexivity.
Qed.

Lemma install_copies_built_binary_witness :
  makedirs "/usr/libexec/swift"
    {| fs := built ∅; trace := [Call (first_command install_scenario)]; cwd := "/" |}
  = (Ok tt, made_world)
  /\ fst (main working_toolchain install_scenario empty_world) = Ok tt
  /\ exists place,
       file_at
         (<[key_of ("swift-backtrace" :: place) := File "ELF"]> (fs made_world))
         "/" "/usr/libexec/swift/swift-backtrace" = Some "ELF".
Proof.
  assert (makedirs "/usr/libexec/swift"
            {| fs := built ∅; trace := [Call (first_command install_scenario)];
               cwd := "/" |} = (Ok tt, made_world)) as Hmade
    by (vm_compute; reflexivity).
  split; [exact Hmade |].
  assert (path_exists (fs made_world) "/"
            (PosixPath.join "/usr/libexec/swift" ["swift-backtrace"]) = false) as Hnew
    by (vm_compute; reflexivity).
  assert (file_at (fs made_world) "/"
            (PosixPath.join
               (Bytes.strip ("/tmp/out/release" +:+ String (ascii_of_nat 10) ""))
               ["swift-backtrace"]) = Some "ELF") as Hsrc
    by (vm_compute; reflexivity).
  destruct (install_copies_built_binary
              working_toolchain install_scenario empty_world "/usr/libexec/swift"
              0 "" (built ∅) made_world
              ("/tmp/out/release" +:+ String (ascii_of_nat 10) "") "ELF"
              eq_refl eq_refl eq_refl Hmade eq_refl Hnew eq_refl eq_refl Hsrc)
    as (place & _ & Hmain & Hread).
  split; [rewrite Hmain; reflexivity | exists place; exact Hread].
Defined.

(** ** An install that fails half way *)



(** ** The name of the built binary *)

(** X9: whatever product is asked for, a path that [get_binary_path]
    returns names the file swift-backtrace: it is the fixed name behind a
    separator, or the bare relative name when the query printed nothing. *)
Theorem binary_path_names_swift_backtrace
    (sys : programs) (args : Namespace) (product : string) (w : world)
    (path : string) :
  fst (get_binary_path sys args product w) = Ok path ->
  exists dir,
    path = dir +:+ "swift-backtrace"
    /\ (dir = "" \/ PosixPath.ends_with_sep dir = true).
Proof.
  unfold get_binary_path, bind, decode.
  destruct (subprocess_check_output _ _ w) as [[out | e] w1]; [| discriminate].
  destruct (Bytes.utf8_valid (Bytes.strip out)); [| discriminate].
  cbn [ret fst]. intros [= <-].
  unfold PosixPath.join. cbn [fold_left].
  destruct (join_step_relative (Bytes.strip out) "s" "wift-backtrace" eq_refl)
    as (dir & Hjoin & Hdir & _).
  exists dir. split; [exact Hjoin | exact Hdir].
Qed.

Lemma binary_path_names_swift_backtrace_witness :
  fst (get_binary_path working_toolchain scenario "some-other-product" empty_world)
    = Ok "/tmp/out/release/swift-backtrace"
  /\ exists dir,
       "/tmp/out/release/swift-backtrace" = dir +:+ "swift-backtrace"
       /\ (dir = "" \/ PosixPath.ends_with_sep dir = true).
Proof.
  split; [reflexivity |].
  apply (binary_path_names_swift_backtrace
           working_toolchain scenario "some-other-product" empty_world).
  reflexivity.
Defined.

(** * Further properties of the product descriptor *)

(** ** Path arithmetic *)

Lemma norm_comps_app (n : nat) (acc l1 l2 : list string) :
  PosixPath.norm_comps n acc (l1 ++ l2) =
    PosixPath.norm_comps n (rev (PosixPath.norm_comps n acc l1)) l2.
Proof.
  revert acc. induction l1 as [| comp l1 IH]; intros acc.
  - cbn. rewrite rev_involutive. reflexivity.
  - cbn [app PosixPath.norm_comps].
    destruct (_ || _); [apply IH |].
    destruct (_ || _); apply IH.
Qed.

Lemma join_sep_snoc (xs : list string) (c : string) :
  PosixPath.join_sep (xs ++ [c]) =
    match xs with
    | [] => c
    | _ => PosixPath.join_sep xs +:+ "/" +:+ c
    end.
Proof.
  induction xs as [| x xs IH]; [reflexivity |].
  cbn [app PosixPath.join_sep]. rewrite IH.
  destruct xs as [| x' xs'].
  - reflexivity.
  - cbn [app]. rewrite !string_app_assoc. reflexivity.
Qed.

(** Normalising a path that ends in [/swift/tools/swift-backtrace] keeps
    these three names at the end, behind a separator or at the start. *)
Lemma normpath_keeps_package_suffix (y : string) :
  exists base,
    PosixPath.normpath (y +:+ "/swift/tools/swift-backtrace")
      = base +:+ "swift/tools/swift-backtrace"
    /\ (base = "" \/ PosixPath.ends_with_sep base = true)
    /\ (PosixPath.starts_with_sep (y +:+ "/swift/tools/swift-backtrace") = true ->
        PosixPath.starts_with_sep base = true).
Proof.
  unfold PosixPath.normpath.
  rewrite (is_empty_append y "/" "swift/tools/swift-backtrace").
  set (path := y +:+ "/swift/tools/swift-backtrace").
  set (n := PosixPath.initial_slashes path).
  assert (PosixPath.norm_comps n [] (PosixPath.split_sep path) =
          PosixPath.norm_comps n [] (PosixPath.split_sep y)
          ++ ["swift"; "tools"; "swift-backtrace"]) as ->.
  { unfold path. rewrite split_sep_append_sep, norm_comps_app.
    cbn. rewrite rev_involutive, <- !app_assoc. reflexivity. }
  set (xs := PosixPath.norm_comps n [] (PosixPath.split_sep y)).
  assert (exists front,
            PosixPath.join_sep (xs ++ ["swift"; "tools"; "swift-backtrace"])
              = front +:+ "swift/tools/swift-backtrace"
            /\ (front = "" \/ PosixPath.ends_with_sep front = true))
    as (front & -> & Hfront).
  { change (xs ++ ["swift"; "tools"; "swift-backtrace"])
      with (xs ++ ["swift"] ++ ["tools"] ++ ["swift-backtrace"]).
    rewrite !app_assoc, !join_sep_snoc.
    destruct xs as [| x xs'].
    - exists "". split; [reflexivity | left; reflexivity].
    - exists (PosixPath.join_sep (x :: xs') +:+ "/"). split.
      + cbn [app]. rewrite !string_app_assoc. reflexivity.
      + right. apply (ends_with_sep_append _ "/" ""). }
  assert (n = 0 \/ n = 1 \/ n = 2) as Hn.
  { unfold n, PosixPath.initial_slashes.
    destruct path as [| a [| b [| c r]]];
      repeat match goal with
             | |- context [match ?x with Ascii _ _ _ _ _ _ _ _ => _ end] => destruct x
             | |- context [if ?b then _ else _] => destruct b
             end; auto. }
  assert (PosixPath.starts_with_sep path = true -> n <> 0) as Habs.
  { unfold n, PosixPath.initial_slashes, PosixPath.starts_with_sep.
    destruct path as [| a r]; [discriminate |].
    destruct a as [[] [] [] [] [] [] [] []]; try discriminate.
    destruct r as [| b [| c r']]; intros _;
      repeat match goal with
             | |- context [match ?x with Ascii _ _ _ _ _ _ _ _ => _ end] => destruct x
             | |- context [if ?b then _ else _] => destruct b
             end; discriminate. }
  exists (String.concat "" (repeat "/" n) +:+ front).
  rewrite string_app_assoc.
  assert (PosixPath.is_empty
            (String.concat "" (repeat "/" n) +:+ front +:+ "swift/tools/swift-backtrace")
          = false) as ->.
  { rewrite <- string_app_assoc. apply is_empty_append. }
  split; [reflexivity |]. split.
  - destruct Hn as [-> | [-> | ->]]; destruct Hfront as [-> | Hf]; cbn;
      auto; right;
      try exact Hf;
      try (change ("/" +:+ front) with (String "/" front);
           change ("//" +:+ front) with (String "/" (String "/" front));
           cbn; destruct front; [discriminate Hf | cbn in Hf |- *; exact Hf]).
  - intros Hp. specialize (Habs Hp).
    destruct Hn as [-> | [-> | ->]]; [contradiction | reflexivity | reflexivity].
Qed.

(** The package path of the descriptor: the three names
    swift/tools/swift-backtrace behind what is left of the source
    directory's parent. *)
Lemma package_path_shape (cwd sd : string) :
  exists base,
    PosixPath.abspath cwd
      (PosixPath.join sd [".."; "swift"; "tools"; "swift-backtrace"])
      = base +:+ "swift/tools/swift-backtrace"
    /\ (base = "" \/ PosixPath.ends_with_sep base = true)
    /\ (PosixPath.starts_with_sep cwd = true ->
        PosixPath.starts_with_sep base = true).
Proof.
  unfold PosixPath.join. cbn [fold_left].
  destruct (join_step_relative sd "." "." eq_refl) as (dir & Hup & _ & _).
  set (up := PosixPath.join_step sd "..") in *.
  assert (PosixPath.is_empty up = false) as Hup_ne
    by (rewrite Hup; apply is_empty_append).
  assert (PosixPath.ends_with_sep up = false) as Hup_end
    by (rewrite Hup, ends_with_sep_append; reflexivity).
  rewrite (join_step_name up "swift" Hup_ne Hup_end eq_refl).
  rewrite (join_step_name _ "tools" (is_empty_after_sep _ _)
             (ends_with_sep_after_sep up "s" "wift") eq_refl).
  rewrite (join_step_name _ "swift-backtrace" (is_empty_after_sep _ _)
             (ends_with_sep_after_sep _ "t" "ools") eq_refl).
  assert (((up +:+ "/" +:+ "swift") +:+ "/" +:+ "tools") +:+ "/" +:+ "swift-backtrace"
          = up +:+ "/swift/tools/swift-backtrace") as ->
    by (rewrite !string_app_assoc; reflexivity).
  set (joined := up +:+ "/swift/tools/swift-backtrace").
  unfold PosixPath.abspath.
  destruct (PosixPath.starts_with_sep joined) eqn:Habs.
  - destruct (normpath_keeps_package_suffix up) as (base & Hnorm & Hbase & Hstart).
    exists base. fold joined in Hnorm, Hstart. auto.
  - unfold PosixPath.join. cbn [fold_left].
    destruct (join_step_relative_any cwd joined Habs) as [-> | ->]; unfold joined.
    + rewrite <- string_app_assoc.
      destruct (normpath_keeps_package_suffix (cwd +:+ up))
        as (base & Hnorm & Hbase & Hstart).
      exists base. repeat split; [exact Hnorm | exact Hbase |].
      intros Hcwd. apply Hstart.
      rewrite string_app_assoc. apply starts_with_sep_append, Hcwd.
    + rewrite <- string_app_assoc.
      destruct (normpath_keeps_package_suffix ((cwd +:+ "/") +:+ up))
        as (base & Hnorm & Hbase & Hstart).
      exists base. repeat split; [exact Hnorm | exact Hbase |].
      intros Hcwd. apply Hstart.
      rewrite !string_app_assoc. apply starts_with_sep_append, Hcwd.
Qed.

(** *** The normal form of the package path *)

Lemma split_sep_no_sep (p : string) :
  forallb no_sep (PosixPath.split_sep p) = true.
Proof.
  induction p as [| c p IH]; [reflexivity |].
  cbn [PosixPath.split_sep]. destruct (Ascii.eqb c "/") eqn:Ec; [exact IH |].
  destruct (PosixPath.split_sep p) as [| comp comps].
  - cbn. rewrite Ec. reflexivity.
  - cbn [forallb] in IH |- *. apply andb_true_iff in IH as [Hc Hr].
    cbn [no_sep]. rewrite Ec, Hc, Hr. reflexivity.
Qed.

Lemma repeat_snoc (x : string) (j : nat) : x :: repeat x j = repeat x j ++ [x].
Proof. induction j as [| j IH]; [reflexivity |]. cbn. rewrite <- IH. reflexivity. Qed.

Lemma rev_repeat_same (x : string) (j : nat) : rev (repeat x j) = repeat x j.
Proof.
  induction j as [| j IH]; [reflexivity |].
  cbn [repeat rev]. rewrite IH. symmetry. apply repeat_snoc.
Qed.

(** The loop of [normpath] keeps its stack in normal form: names on top
    of a run of [..], which is there for a relative path only. *)
Lemma norm_comps_normal (n : nat) (comps acc : list string) :
  forallb no_sep comps = true ->
  normal_stack n acc ->
  exists acc', PosixPath.norm_comps n acc comps = rev acc' /\ normal_stack n acc'.
Proof.
  revert acc. induction comps as [| comp rest IH]; intros acc Hsep Hacc.
  - exists acc. split; [reflexivity | exact Hacc].
  - cbn [forallb] in Hsep. apply andb_true_iff in Hsep as [Hcomp Hrest].
    cbn [PosixPath.norm_comps].
    destruct (String.eqb comp "") eqn:E0; [apply IH; assumption |].
    destruct (String.eqb comp ".") eqn:E1; [apply IH; assumption |].
    cbn [orb].
    destruct Hacc as (tops & j & -> & Htops & Hj).
    destruct (String.eqb comp "..") eqn:E2; cbn [negb orb].
    + apply String.eqb_eq in E2. subst comp.
      destruct tops as [| t tops'].
      * cbn [app].
        destruct ((Nat.eqb n 0 && PosixPath.no_comps (repeat ".." j))
                  || PosixPath.top_is_dotdot (repeat ".." j)) eqn:Epush.
        -- apply IH; [exact Hrest |].
           exists [], (S j). repeat split.
           intros Hn. specialize (Hj Hn). subst j.
           destruct n; [contradiction | discriminate Epush].
        -- apply IH; [exact Hrest |].
           exists [], (pred j). split; [destruct j; reflexivity |].
           split; [reflexivity |]. intros Hn. rewrite (Hj Hn). reflexivity.
      * cbn [app forallb] in Htops |- *. apply andb_true_iff in Htops as [Ht Htops].
        cbn [PosixPath.no_comps PosixPath.top_is_dotdot andb orb].
        rewrite andb_false_r. cbn [orb].
        assert (String.eqb t ".." = false) as ->.
        { unfold is_name in Ht. destruct (String.eqb t ".."); [| reflexivity].
          apply andb_true_iff in Ht as [Ht _].
          apply andb_true_iff in Ht as [_ Ht]. discriminate Ht. }
        apply IH; [exact Hrest |]. cbn [tl].
        exists tops', j. repeat split; assumption.
    + apply IH; [exact Hrest |].
      exists (comp :: tops), j. split; [reflexivity |]. split; [| exact Hj].
      cbn [forallb]. rewrite Htops, andb_true_r.
      unfold is_name. rewrite E1, E2, Hcomp.
      destruct comp; [discriminate E0 | reflexivity].
Qed.

Lemma forallb_rev (g : string -> bool) (l : list string) :
  forallb g l = true -> forallb g (rev l) = true.
Proof.
  rewrite !forallb_forall. intros H x Hx. apply H, in_rev. exact Hx.
Qed.

Lemma join_sep_package_suffix (xs : list string) :
  PosixPath.join_sep (xs ++ ["swift"; "tools"; "swift-backtrace"])
    = (match xs with
       | [] => ""
       | _ => PosixPath.join_sep xs +:+ "/"
       end) +:+ "swift/tools/swift-backtrace".
Proof.
  change (xs ++ ["swift"; "tools"; "swift-backtrace"])
    with (xs ++ ["swift"] ++ ["tools"] ++ ["swift-backtrace"]).
  rewrite !app_assoc, !join_sep_snoc.
  destruct xs as [| x xs']; [reflexivity |].
  cbn [app]. rewrite !string_app_assoc. reflexivity.
Qed.

(** Normalising a path that ends in [/swift/tools/swift-backtrace] gives
    one or two leading separators or none, a run of [..] for a relative
    path only, names, and the three names at the end. *)
Lemma normpath_package_form (y : string) :
  exists lead ups names,
    PosixPath.normpath (y +:+ "/swift/tools/swift-backtrace")
      = lead +:+ PosixPath.join_sep (ups ++ names ++ ["swift"; "tools"; "swift-backtrace"])
    /\ (lead = "" \/ lead = "/" \/ lead = "//")
    /\ (exists j, ups = repeat ".." j)
    /\ (lead <> "" -> ups = [])
    /\ forallb is_name names = true.
Proof.
  unfold PosixPath.normpath.
  rewrite (is_empty_append y "/" "swift/tools/swift-backtrace").
  set (path := y +:+ "/swift/tools/swift-backtrace").
  set (n := PosixPath.initial_slashes path).
  assert (PosixPath.norm_comps n [] (PosixPath.split_sep path) =
          PosixPath.norm_comps n [] (PosixPath.split_sep y)
          ++ ["swift"; "tools"; "swift-backtrace"]) as ->.
  { unfold path. rewrite split_sep_append_sep, norm_comps_app.
    cbn. rewrite rev_involutive, <- !app_assoc. reflexivity. }
  destruct (norm_comps_normal n (PosixPath.split_sep y) [] (split_sep_no_sep y))
    as (acc' & -> & tops & j & -> & Htops & Hj).
  { exists [], 0. repeat split. }
  rewrite rev_app_distr, rev_repeat_same, <- app_assoc.
  assert (n = 0 \/ n = 1 \/ n = 2) as Hn.
  { unfold n, PosixPath.initial_slashes.
    destruct path as [| a [| b [| c r]]];
      repeat match goal with
             | |- context [match ?x with Ascii _ _ _ _ _ _ _ _ => _ end] => destruct x
             | |- context [if ?b then _ else _] => destruct b
             end; auto. }
  exists (String.concat "" (repeat "/" n)), (repeat ".." j), (rev tops).
  assert (PosixPath.is_empty
            (String.concat "" (repeat "/" n)
             +:+ PosixPath.join_sep
                   (repeat ".." j ++ rev tops ++ ["swift"; "tools"; "swift-backtrace"]))
          = false) as ->.
  { rewrite app_assoc, join_sep_package_suffix, <- string_app_assoc.
    apply is_empty_append. }
  split; [reflexivity |].
  split; [destruct Hn as [-> | [-> | ->]]; cbn; auto |].
  split; [exists j; reflexivity |].
  split; [| apply forallb_rev; exact Htops].
  intros Hlead.
  assert (n <> 0) as Hn0 by (intros ->; apply Hlead; reflexivity).
  rewrite (Hj Hn0). reflexivity.
Qed.

(** What [abspath] normalises for the package path. *)
Lemma package_path_input (cwd sd : string) :
  exists y,
    PosixPath.abspath cwd
      (PosixPath.join sd [".."; "swift"; "tools"; "swift-backtrace"])
      = PosixPath.normpath (y +:+ "/swift/tools/swift-backtrace").
Proof.
  unfold PosixPath.join. cbn [fold_left].
  destruct (join_step_relative sd "." "." eq_refl) as (dir & Hup & _ & _).
  set (up := PosixPath.join_step sd "..") in *.
  assert (PosixPath.is_empty up = false) as Hup_ne
    by (rewrite Hup; apply is_empty_append).
  assert (PosixPath.ends_with_sep up = false) as Hup_end
    by (rewrite Hup, ends_with_sep_append; reflexivity).
  rewrite (join_step_name up "swift" Hup_ne Hup_end eq_refl).
  rewrite (join_step_name _ "tools" (is_empty_after_sep _ _)
             (ends_with_sep_after_sep up "s" "wift") eq_refl).
  rewrite (join_step_name _ "swift-backtrace" (is_empty_after_sep _ _)
             (ends_with_sep_after_sep _ "t" "ools") eq_refl).
  assert (((up +:+ "/" +:+ "swift") +:+ "/" +:+ "tools") +:+ "/" +:+ "swift-backtrace"
          = up +:+ "/swift/tools/swift-backtrace") as ->
    by (rewrite !string_app_assoc; reflexivity).
  set (joined := up +:+ "/swift/tools/swift-backtrace").
  unfold PosixPath.abspath.
  destruct (PosixPath.starts_with_sep joined) eqn:Habs; [exists up; reflexivity |].
  unfold PosixPath.join. cbn [fold_left].
  destruct (join_step_relative_any cwd joined Habs) as [-> | ->]; unfold joined;
    rewrite <- string_app_assoc; eexists; reflexivity.
Qed.

(** X10: whatever the source directory is, the descriptor passes as
    [--package-path] a path in normal form that ends in the three names
    swift/tools/swift-backtrace: at most two leading separators, then
    components with a separator between each two, none of them empty or
    [.], and [..] only in a run at the front of a relative path; the
    script it runs is build-script-helper.py directly in that package. *)
Theorem helper_script_lies_in_package
    (cwd : string) (self : SwiftBacktrace) (a host_target : string) :
  exists lead ups names,
    let package :=
      lead +:+ PosixPath.join_sep
                 (ups ++ names ++ ["swift"; "tools"; "swift-backtrace"]) in
    nth_error (helper_cmd cwd self a host_target) 8 = Some "--package-path"
    /\ nth_error (helper_cmd cwd self a host_target) 9 = Some package
    /\ nth_error (helper_cmd cwd self a host_target) 0
         = Some (package +:+ "/build-script-helper.py")
    /\ (lead = "" \/ lead = "/" \/ lead = "//")
    /\ (exists j, ups = repeat ".." j)
    /\ (lead <> "" -> ups = [])
    /\ forallb is_name names = true.
Proof.
  destruct (package_path_input cwd (source_dir self)) as (y & Hinput).
  destruct (normpath_package_form y)
    as (lead & ups & names & Hform & Hlead & Hups & Hrel & Hnames).
  exists lead, ups, names. intros package.
  assert (PosixPath.abspath cwd
            (PosixPath.join (source_dir self) [".."; "swift"; "tools"; "swift-backtrace"])
          = package) as Hpkg by (rewrite Hinput; exact Hform).
  unfold helper_cmd. rewrite Hpkg.
  assert (PosixPath.join package ["build-script-helper.py"]
          = package +:+ "/build-script-helper.py") as ->.
  { unfold PosixPath.join. cbn [fold_left]. unfold package.
    rewrite app_assoc, join_sep_package_suffix, <- string_app_assoc.
    rewrite join_step_name;
      [reflexivity
      | apply is_empty_append
      | rewrite ends_with_sep_append; reflexivity
      | reflexivity]. }
  destruct (verbose_build (Product.args self)); repeat split; assumption.
Qed.

(** X11: when the working directory is absolute, so are the package path
    and the path of the script the descriptor runs, also for a relative
    source directory. *)
Theorem helper_paths_are_absolute
    (cwd : string) (self : SwiftBacktrace) (a host_target : string) :
  PosixPath.starts_with_sep cwd = true ->
  exists script package,
    nth_error (helper_cmd cwd self a host_target) 0 = Some script
    /\ nth_error (helper_cmd cwd self a host_target) 9 = Some package
    /\ PosixPath.starts_with_sep script = true
    /\ PosixPath.starts_with_sep package = true.
Proof.
  intros Hcwd.
  destruct (package_path_shape cwd (source_dir self)) as (base & Hpkg & _ & Habs).
  specialize (Habs Hcwd).
  unfold helper_cmd. rewrite Hpkg.
  set (package := base +:+ "swift/tools/swift-backtrace").
  assert (PosixPath.starts_with_sep package = true) as Hpackage
    by (apply starts_with_sep_append, Habs).
  exists (PosixPath.join package ["build-script-helper.py"]), package.
  assert (PosixPath.starts_with_sep
            (PosixPath.join package ["build-script-helper.py"]) = true) as Hscript.
  { unfold PosixPath.join. cbn [fold_left].
    destruct (join_step_relative_any package "build-script-helper.py" eq_refl)
      as [-> | ->]; rewrite ?string_app_assoc;
      apply starts_with_sep_append, Hpackage. }
  destruct (verbose_build (Product.args self)); repeat split; assumption.
Qed.

Lemma helper_paths_are_absolute_witness :
  PosixPath.starts_with_sep "/work" = true
  /\ exists script package,
       nth_error (helper_cmd "/work" relative_product "build" "linux-x86_64") 0
         = Some script
       /\ nth_error (helper_cmd "/work" relative_product "build" "linux-x86_64") 9
            = Some package
       /\ PosixPath.starts_with_sep script = true
       /\ PosixPath.starts_with_sep package = true.
Proof.
  split; [reflexivity |].
  apply (helper_paths_are_absolute "/work" relative_product "build" "linux-x86_64").
  reflexivity.
Defined.

(** ** The descriptor and the helper together *)

(** X12: the place of the installed binary.  The value the descriptor
    passes as [--install-path] is the install toolchain path with
    libexec/swift behind it, and the file the helper copies to for that
    install path is swift-backtrace directly in it: the binary lands at
    libexec/swift/swift-backtrace under the install toolchain path. *)
Theorem binary_lands_under_libexec
    (cwd : string) (self : SwiftBacktrace) (a host_target : string) :
  exists base,
    (base = install_toolchain_path self host_target
     \/ base = install_toolchain_path self host_target +:+ "/")
    /\ (base = "" \/ PosixPath.ends_with_sep base = true)
    /\ nth_error (helper_cmd cwd self a host_target) 10 = Some "--install-path"
    /\ nth_error (helper_cmd cwd self a host_target) 11
         = Some (base +:+ "libexec/swift")
    /\ PosixPath.join (base +:+ "libexec/swift") ["swift-backtrace"]
         = base +:+ "libexec/swift/swift-backtrace".
Proof.
  destruct (join_step_relative (install_toolchain_path self host_target)
              "l" "ibexec" eq_refl) as (base & Hlib & Hbase & Hfrom).
  exists base. split; [exact Hfrom |]. split; [exact Hbase |].
  assert (PosixPath.join (install_toolchain_path self host_target)
            ["libexec"; "swift"] = base +:+ "libexec/swift") as Hinst.
  { unfold PosixPath.join. cbn [fold_left]. rewrite Hlib.
    rewrite join_step_name;
      [rewrite string_app_assoc; reflexivity
      | apply is_empty_append
      | rewrite ends_with_sep_append; reflexivity
      | reflexivity]. }
  unfold helper_cmd. rewrite Hinst.
  split; [destruct (verbose_build (Product.args self)); reflexivity |].
  split; [destruct (verbose_build (Product.args self)); reflexivity |].
  unfold PosixPath.join. cbn [fold_left].
  rewrite join_step_name;
    [rewrite string_app_assoc; reflexivity
    | apply is_empty_append
    | rewrite ends_with_sep_append; reflexivity
    | reflexivity].
Qed.

(** X13: the command of the descriptor fits the parser of the helper: the
    action is its second element, every option the parser requires is in
    the command, and the value passed for [--configuration] is one of the
    parser's choices. *)
Theorem helper_cmd_fits_parser
    (cwd : string) (self : SwiftBacktrace) (a host_target : string) :
  nth_error (helper_cmd cwd self a host_target) 1 = Some a
  /\ forallb (fun option =>
                existsb (String.eqb option) (helper_cmd cwd self a host_target))
       required_options = true
  /\ nth_error (helper_cmd cwd self a host_target) 4 = Some "--configuration"
  /\ exists value,
       nth_error (helper_cmd cwd self a host_target) 5 = Some value
       /\ accepted configuration_choices value = true.
Proof.
  set (cmd := helper_cmd cwd self a host_target).
  assert (exists script tc value pkg inst tail,
            cmd = [script; a; "--toolchain"; tc; "--configuration"; value;
                   "--build-path"; build_dir self; "--package-path"; pkg;
                   "--install-path"; inst] ++ tail
            /\ accepted configuration_choices value = true)
    as (script & tc & value & pkg & inst & tail & -> & Hvalue).
  { unfold cmd, helper_cmd.
    destruct (verbose_build (Product.args self)), (is_release self);
      do 5 eexists; [exists ["--verbose"] | exists ["--verbose"] | exists [] | exists []];
      split; reflexivity. }
  split; [reflexivity |]. split.
  - unfold required_options. cbn [forallb].
    rewrite !andb_true_iff. repeat split;
      apply existsb_exists; eexists; (split; [| apply String.eqb_refl]);
      cbn; tauto.
  - split; [reflexivity |]. exists value. split; [reflexivity | exact Hvalue].
Qed.
